(** * Policy lint: a shallow embedding of [scripts/policy_lint.py]

    The script validates decoded YAML policy documents in two passes
    ([validate_policy_structure], [validate_policy_content]) and glues them
    together per file in [lint_policy_file].  Each Python function builds a
    local list [errors] by [errors.append(...)]; run-time type errors
    surface as Python exceptions.  Both effects are kept explicit here: a
    computation threads the list of messages and either returns or raises. *)

From Stdlib Require Import String Ascii List Bool Arith ZArith Lia.
From Stdlib Require Import DecimalString DecimalNat SpecFloat.
Import ListNotations.
Local Open Scope string_scope.
Local Open Scope list_scope.

(** ** Decoded YAML values *)

(** A YAML timestamp decodes to a [datetime.date] or, when it has a time
    part, to a [datetime.datetime], with its offset from UTC in minutes
    when the text gives one. *)
Record date : Type := {
  year : nat;
  month : nat;
  day : nat
}.

Record datetime : Type := {
  date_of : date;
  hour : nat;
  minute : nat;
  second : nat;
  microsecond : nat;
  utc_offset : option Z
}.

(** What [yaml.safe_load] hands to the validators: the dynamic value of a
    YAML document, one constructor per Python type that the safe loader
    builds (null, bool, int, float, str, binary, timestamp, seq, omap and
    pairs, set, map).  [!!omap] and [!!pairs] decode to a list of tuples.
    A mapping keeps its entries in insertion order, as a Python [dict]
    does; its keys are themselves decoded values.  A document that refers
    to itself through an alias is taken unfolded as deep as the validators
    look, which is four levels. *)
#[warnings="-register-all"]
Inductive value : Type :=
| VNone
| VBool (b : bool)
| VInt (n : Z)
| VFloat (x : spec_float)
| VStr (s : string)
| VBytes (data : string)
| VDate (d : date)
| VDatetime (t : datetime)
| VList (items : list value)
| VTuple (items : list value)
| VSet (items : list value)
| VDict (entries : list (value * value)).

(** ** Exceptions *)

(** The ways a Python [TypeError] arises in the validators, for a string
    [key]. *)
Inductive type_error : Type :=
| NotIterable (container : value)
    (* [key in container] on null, a boolean, a number or a timestamp *)
| BytesLikeRequired (container : value)
    (* [key in container] on bytes *)
| BadIndex (container : value)
    (* [container[key]] on a str, bytes, list or tuple *)
| NotSubscriptable (container : value)
    (* [container[key]] on a set or a scalar *).

Inductive exn : Type :=
| TypeError (why : type_error)
| KeyError (key : string)
| ValueError (detail : string)
| RecursionError
| UnicodeEncodeError (detail : string)
| FileNotFoundError
| PermissionError
| YAMLError (detail : string)
| OtherException (detail : string).

Definition result (A : Type) : Type := (exn + A)%type.

(** ** The interpreter's text rendering *)

(** How a value that is not a [str] is formatted by an f-string
    placeholder, and [str(e)] of an exception, are the work of the Python
    run time, not of the script.  Formatting can raise: [ValueError] for
    an [int] of more than 4300 digits, [RecursionError] for a value
    nested too deep. *)
Class Runtime : Type := {
  py_format : value -> result string;
  exn_str : exn -> string
}.

(** ** Python primitives used by the script *)

Module Py.

Definition is_str (key : string) (v : value) : bool :=
  match v with
  | VStr s => String.eqb s key
  | _ => false
  end.

Fixpoint dict_lookup (key : string) (entries : list (value * value))
  : option value :=
  match entries with
  | [] => None
  | (k, v) :: rest => if is_str key k then Some v else dict_lookup key rest
  end.

Definition dict_has (key : string) (entries : list (value * value)) : bool :=
  existsb (fun kv => is_str key (fst kv)) entries.

(** [needle in hay] on two strings: substring search. *)
Fixpoint str_contains (needle hay : string) : bool :=
  String.prefix needle hay
  || match hay with
     | EmptyString => false
     | String _ rest => str_contains needle rest
     end.

(** [key in container] for a string [key]. *)
Definition contains (key : string) (container : value) : result bool :=
  match container with
  | VDict entries => inr (dict_has key entries)
  | VList items | VTuple items | VSet items =>
      inr (existsb (is_str key) items)
  | VStr s => inr (str_contains key s)
  | VBytes _ => inl (TypeError (BytesLikeRequired container))
  | _ => inl (TypeError (NotIterable container))
  end.

(** [container[key]] for a string [key]. *)
Definition getitem (container : value) (key : string) : result value :=
  match container with
  | VDict entries =>
      match dict_lookup key entries with
      | Some v => inr v
      | None => inl (KeyError key)
      end
  | VStr _ | VBytes _ | VList _ | VTuple _ =>
      inl (TypeError (BadIndex container))
  | _ => inl (TypeError (NotSubscriptable container))
  end.

(** [v in options] where [options] is a list of string literals. *)
Definition in_strs (v : value) (options : list string) : bool :=
  existsb (fun o => is_str o v) options.

Definition isinstance_str (v : value) : bool :=
  match v with VStr _ => true | _ => false end.

Definition isinstance_dict (v : value) : bool :=
  match v with VDict _ => true | _ => false end.

Definition is_none (v : value) : bool :=
  match v with VNone => true | _ => false end.

Definition float_is_zero (x : spec_float) : bool :=
  match x with S754_zero _ => true | _ => false end.

(** [bool(v)]. *)
Definition truthy (v : value) : bool :=
  match v with
  | VNone => false
  | VBool b => b
  | VInt n => negb (Z.eqb n 0)
  | VFloat x => negb (float_is_zero x)
  | VStr s | VBytes s => negb (String.eqb s EmptyString)
  | VDate _ | VDatetime _ => true
  | VList items | VTuple items | VSet items =>
      match items with [] => false | _ => true end
  | VDict entries => match entries with [] => false | _ => true end
  end.

(** The text an f-string placeholder puts for [v]; a [str] is put as it
    is. *)
Definition str `{Runtime} (v : value) : result string :=
  match v with
  | VStr s => inr s
  | _ => py_format v
  end.

(** An index formatted by an f-string. *)
Definition str_of_nat (i : nat) : string :=
  NilEmpty.string_of_uint (Nat.to_uint i).

Fixpoint enumerate_from {A : Type} (start : nat) (l : list A)
  : list (nat * A) :=
  match l with
  | [] => []
  | x :: rest => (start, x) :: enumerate_from (S start) rest
  end.

Definition enumerate {A : Type} (l : list A) : list (nat * A) :=
  enumerate_from 0 l.

End Py.

(** ** Computations over the [errors] list *)

(** A computation starts from the current contents of [errors] and ends
    either normally or by raising; the list survives in both cases (it is
    an object of the enclosing function). *)
Definition M (A : Type) : Type := list string -> result A * list string.

Definition ret {A : Type} (a : A) : M A := fun errors => (inr a, errors).

Definition bind {A B : Type} (m : M A) (k : A -> M B) : M B :=
  fun errors =>
    match m errors with
    | (inr a, errors') => k a errors'
    | (inl e, errors') => (inl e, errors')
    end.

Definition lift {A : Type} (r : result A) : M A := fun errors => (r, errors).

(** [errors.append(msg)] *)
Definition append (msg : string) : M unit :=
  fun errors => (inr tt, errors ++ [msg]).

(** [errors.extend(msgs)] *)
Definition extend (msgs : list string) : M unit :=
  fun errors => (inr tt, errors ++ msgs).

(** [try: m  except <handles>: h] *)
Definition try_except {A : Type} (m : M A) (handles : exn -> bool)
  (h : exn -> M A) : M A :=
  fun errors =>
    match m errors with
    | (inl e, errors') =>
        if handles e then h e errors' else (inl e, errors')
    | done => done
    end.

Declare Scope py_scope.
Delimit Scope py_scope with py.
Notation "x <- m ;; k" := (bind m (fun x => k))
  (at level 61, m at next level, right associativity) : py_scope.
Notation "m ;; k" := (bind m (fun _ => k))
  (at level 61, right associativity) : py_scope.
Local Open Scope py_scope.

(** [if c: m] with no [else]. *)
Definition when (c : bool) (m : M unit) : M unit :=
  if c then m else ret tt.

(** [for x in l: body x] *)
Fixpoint for_each {A : Type} (l : list A) (body : A -> M unit) : M unit :=
  match l with
  | [] => ret tt
  | x :: rest => body x ;; for_each rest body
  end.

(** A function that starts with [errors = []] and ends with
    [return errors]; an exception leaving the function drops the list. *)
Definition returning_errors (body : M unit) : result (list string) :=
  match body [] with
  | (inr _, errors) => inr errors
  | (inl e, _) => inl e
  end.

(** ** The validators *)

Section PolicyLint.

Context {rt : Runtime}.

Definition required_keys : list string := ["name"; "version"; "rules"].

Definition severities : list string := ["low"; "medium"; "high"; "critical"].

Definition valid_types : list string :=
  ["security"; "compliance"; "performance"; "observability"].

(** *** Messages, one definition per f-string of the script *)

Definition msg_missing_key (filename key : string) : string :=
  filename ++ ": Missing required key '" ++ key ++ "'".

Definition msg_name_type (filename : string) : string :=
  filename ++ ": 'name' must be a string".

Definition msg_version_type (filename : string) : string :=
  filename ++ ": 'version' must be a string".

Definition msg_rules_type (filename : string) : string :=
  filename ++ ": 'rules' must be a list".

Definition msg_rule_not_dict (filename : string) (i : nat) : string :=
  filename ++ ": Rule " ++ Py.str_of_nat i ++ " must be a dictionary".

Definition msg_rule_missing (filename : string) (i : nat) (field : string)
  : string :=
  filename ++ ": Rule " ++ Py.str_of_nat i ++ " missing '" ++ field
           ++ "' field".

Definition msg_rule_severity (filename : string) (i : nat) (shown : string)
  : string :=
  filename ++ ": Rule " ++ Py.str_of_nat i ++ " invalid severity '" ++ shown
           ++ "'".

Definition msg_empty (filename : string) : string :=
  filename ++ ": Policy file is empty".

Definition msg_not_object (filename : string) : string :=
  filename ++ ": Policy must be a YAML object".

Definition msg_policy_type (filename shown : string) : string :=
  filename ++ ": Invalid policy type '" ++ shown ++ "'".

Definition msg_empty_yaml (filepath : string) : string :=
  filepath ++ ": Empty or invalid YAML file".

Definition msg_yaml_error (filepath shown : string) : string :=
  filepath ++ ": YAML parsing error: " ++ shown.

Definition msg_not_found (filepath : string) : string :=
  filepath ++ ": File not found".

Definition msg_permission (filepath : string) : string :=
  filepath ++ ": Permission denied".

Definition msg_unexpected (filepath shown : string) : string :=
  filepath ++ ": Unexpected error: " ++ shown.

(** *** [validate_policy_structure] *)

(** Lines 45-56: the checks on one rule that is a dictionary. *)
Definition check_rule_fields (filename : string) (i : nat) (rule : value)
  : M unit :=
  has_id <- lift (Py.contains "id" rule) ;;
  when (negb has_id) (append (msg_rule_missing filename i "id")) ;;
  has_description <- lift (Py.contains "description" rule) ;;
  when (negb has_description)
       (append (msg_rule_missing filename i "description")) ;;
  has_severity <- lift (Py.contains "severity" rule) ;;
  if negb has_severity then
    append (msg_rule_missing filename i "severity")
  else
    severity <- lift (Py.getitem rule "severity") ;;
    when (negb (Py.in_strs severity severities))
         (shown <- lift (Py.str severity) ;;
          append (msg_rule_severity filename i shown)).

(** Lines 41-56: the body of the loop over [enumerate(policy["rules"])]. *)
Definition check_rule (filename : string) (entry : nat * value) : M unit :=
  let (i, rule) := entry in
  if negb (Py.isinstance_dict rule) then
    append (msg_rule_not_dict filename i)
  else
    check_rule_fields filename i rule.

(** Lines 28-29 and 32-33:
    [if key in policy and not isinstance(policy[key], str)]. *)
Definition check_str_field (policy : value) (key msg : string) : M unit :=
  present <- lift (Py.contains key policy) ;;
  if present then
    v <- lift (Py.getitem policy key) ;;
    when (negb (Py.isinstance_str v)) (append msg)
  else ret tt.

Definition structure_body (policy : value) (filename : string) : M unit :=
  for_each required_keys (fun key =>
    present <- lift (Py.contains key policy) ;;
    when (negb present) (append (msg_missing_key filename key))) ;;
  check_str_field policy "name" (msg_name_type filename) ;;
  check_str_field policy "version" (msg_version_type filename) ;;
  has_rules <- lift (Py.contains "rules" policy) ;;
  when has_rules
    (rules <- lift (Py.getitem policy "rules") ;;
     match rules with
     | VList items =>
         for_each (Py.enumerate items) (check_rule filename)
     | _ => append (msg_rules_type filename)
     end).

Definition validate_policy_structure (policy : value) (filename : string)
  : result (list string) :=
  returning_errors (structure_body policy filename).

(** *** [validate_policy_content] *)

(** The two early [return errors] end the function: what follows them
    is the [else] branch. *)
Definition content_body (policy : value) (filename : string) : M unit :=
  if negb (Py.truthy policy) then
    append (msg_empty filename)
  else if negb (Py.isinstance_dict policy) then
    append (msg_not_object filename)
  else
    has_type <- lift (Py.contains "type" policy) ;;
    when has_type
      (type <- lift (Py.getitem policy "type") ;;
       when (negb (Py.in_strs type valid_types))
            (shown <- lift (Py.str type) ;;
             append (msg_policy_type filename shown))).

Definition validate_policy_content (policy : value) (filename : string)
  : result (list string) :=
  returning_errors (content_body policy filename).

(** *** [lint_policy_file] *)

(** What the file system and the YAML parser do for one path:
    [open(filepath)] succeeds or raises, and then [yaml.safe_load(f)]
    returns the decoded document or raises. *)
Record file_io : Type := {
  open_file : result unit;
  safe_load : result value
}.

Definition is_yaml_error (e : exn) : bool :=
  match e with YAMLError _ => true | _ => false end.

Definition is_file_not_found (e : exn) : bool :=
  match e with FileNotFoundError => true | _ => false end.

Definition is_permission_error (e : exn) : bool :=
  match e with PermissionError => true | _ => false end.

(** The outer [try] has three [except] clauses, tried in order; the
    last one, [except Exception], takes whatever is left. *)
Definition lint_body (filepath : string) (io : file_io) : M unit :=
  try_except
    (lift (open_file io) ;;
     try_except
       (policy <- lift (safe_load io) ;;
        if Py.is_none policy then
          append (msg_empty_yaml filepath)
        else
          structural <- lift (validate_policy_structure policy filepath) ;;
          extend structural ;;
          content <- lift (validate_policy_content policy filepath) ;;
          extend content)
       is_yaml_error
       (fun e => append (msg_yaml_error filepath (exn_str e))))
    (fun _ => true)
    (fun e =>
       if is_file_not_found e then append (msg_not_found filepath)
       else if is_permission_error e then append (msg_permission filepath)
       else append (msg_unexpected filepath (exn_str e))).

(** Every exception is handled inside, so the function always reaches
    its final [return errors]. *)
Definition lint_policy_file (filepath : string) (io : file_io)
  : list string :=
  snd (lint_body filepath io []).

(** A file that opened and decoded to [policy]. *)
Definition decoded (policy : value) : file_io :=
  {| open_file := inr tt; safe_load := inr policy |}.

End PolicyLint.

(** ** The command line *)

(** What one run observes of its environment.  [Path(".").glob(pattern)]
    is a generator: it yields paths one after the other and may end by
    raising; a yielded path, once opened, behaves as its [file_io] says.
    [suffix_lower] is [filepath.suffix.lower()], computed by [pathlib] and
    [str], on the text of the path. *)
Record glob_run : Type := {
  yielded : list (string * file_io);
  failure : option exn
}.

Record world : Type := {
  glob : string -> glob_run;
  suffix_lower : string -> string
}.

(** The standard output of the run: [print(text)] writes [text], or
    raises and writes nothing when the stream cannot take it
    ([UnicodeEncodeError] when its encoding lacks a character of
    [text]). *)
Record console : Type := {
  write_fault : string -> option exn
}.

(** What [parser.parse_args()] makes of the command line.  It ends the
    process itself, with status 2 after a usage error (no file given, an
    unknown option) or with status 0 after printing its help; or it
    returns [args.files], which [nargs="+"] makes at least one pattern,
    and [args.verbose]. *)
Inductive command_line : Type :=
| ParserExit (status : nat) (printed : list string)
| Args (pattern : string) (more : list string) (verbose : bool).

(** [for x in l: ...] where the body updates local variables, here
    passed along as [s]. *)
Fixpoint for_fold {A S : Type} (l : list A) (s : S) (body : A -> S -> M S)
  : M S :=
  match l with
  | [] => ret s
  | x :: rest => s' <- body x s ;; for_fold rest s' body
  end.

Section CommandLine.

Context {rt : Runtime}.

(** In [main] the list a computation threads is the standard output: one
    entry per [print(text)] that succeeded, without the line end that
    [print] adds. *)
Definition print (c : console) (text : string) : M unit :=
  match write_fault c text with
  | Some e => lift (inl e)
  | None => append text
  end.

(** The character written as a backslash followed by n in the script. *)
Definition newline : string := String "010" EmptyString.

Definition msg_linting (filepath : string) : string :=
  "Linting " ++ filepath ++ "...".

Definition msg_processed (files_processed : nat) : string :=
  newline ++ "Processed " ++ Py.str_of_nat files_processed ++ " policy files".

Definition msg_found (count : nat) : string :=
  newline ++ "❌ Found " ++ Py.str_of_nat count ++ " errors:".

Definition msg_error_line (error : string) : string :=
  "  " ++ error.

Definition msg_passed (files_processed : nat) : string :=
  newline ++ "✅ All " ++ Py.str_of_nat files_processed
          ++ " policy files passed validation".

(** Line 126: [filepath.suffix.lower() in [".yaml", ".yml"]]. *)
Definition is_policy_file (w : world) (filepath : string) : bool :=
  Py.in_strs (VStr (suffix_lower w filepath)) [".yaml"; ".yml"].

(** The two locals of [main] that the loops update:
    [all_errors] and [files_processed]. *)
Definition totals : Type := (list string * nat)%type.

(** Lines 127-132: what is done with a path that passed the test of
    line 126. *)
Definition lint_one (c : console) (verbose : bool)
  (entry : string * file_io) (so_far : totals) : M totals :=
  let (filepath, io) := entry in
  let (all_errors, files_processed) := so_far in
  when verbose (print c (msg_linting filepath)) ;;
  ret (all_errors ++ lint_policy_file filepath io, files_processed + 1).

(** Lines 126-132: the body of the inner loop, for one yielded path. *)
Definition lint_match (c : console) (w : world) (verbose : bool)
  (entry : string * file_io) (so_far : totals) : M totals :=
  if is_policy_file w (fst entry) then lint_one c verbose entry so_far
  else ret so_far.

(** Lines 125-132: the loop over what [glob] yields; when the generator
    raises, nothing catches the exception. *)
Definition for_glob (run : glob_run) (so_far : totals)
  (body : string * file_io -> totals -> M totals) : M totals :=
  so_far' <- for_fold (yielded run) so_far body ;;
  match failure run with
  | Some e => lift (inl e)
  | None => ret so_far'
  end.

(** Lines 134-145: the report and the exit status given to [sys.exit]. *)
Definition report (c : console) (verbose : bool) (final : totals) : M nat :=
  let (all_errors, files_processed) := final in
  when verbose (print c (msg_processed files_processed)) ;;
  match all_errors with
  | [] => print c (msg_passed files_processed) ;; ret 0
  | _ :: _ =>
      print c (msg_found (length all_errors)) ;;
      for_each all_errors (fun error => print c (msg_error_line error)) ;;
      ret 1
  end.

(** Lines 121-145: [main] once [parse_args] has returned. *)
Definition main_body (c : console) (w : world) (files : list string)
  (verbose : bool) : M nat :=
  final <- for_fold files ([], 0)
             (fun pattern so_far =>
                for_glob (glob w pattern) so_far (lint_match c w verbose)) ;;
  report c verbose final.

(** One run: how the process ends, with the status given to [sys.exit]
    or with an exception that nothing catches, and what was printed. *)
Definition main (c : console) (w : world) (cl : command_line)
  : result nat * list string :=
  match cl with
  | ParserExit status printed => (inr status, printed)
  | Args pattern more verbose => main_body c w (pattern :: more) verbose []
  end.

End CommandLine.


(** ** A run time for concrete runs *)

(** All results below hold for every [Runtime].  To evaluate the
    validators on concrete documents one is fixed here, after CPython
    3.12.  Its texts are CPython's on [None], booleans, integers (with
    the limit of 4300 digits), zeros, infinities and NaN, on strings and
    bytes of printable ASCII without quotes or backslashes, on timestamps,
    and on lists, tuples, sets and dicts of these; the shortest decimal
    form of a finite non-zero float and the escapes of other strings are
    not computed. *)
Module Sample.

Local Open Scope string_scope.

Definition type_name (v : value) : string :=
  match v with
  | VNone => "NoneType"
  | VBool _ => "bool"
  | VInt _ => "int"
  | VFloat _ => "float"
  | VStr _ => "str"
  | VBytes _ => "bytes"
  | VDate _ => "datetime.date"
  | VDatetime _ => "datetime.datetime"
  | VList _ => "list"
  | VTuple _ => "tuple"
  | VSet _ => "set"
  | VDict _ => "dict"
  end.

Fixpoint join (sep : string) (parts : list string) : string :=
  match parts with
  | [] => EmptyString
  | [p] => p
  | p :: rest => p ++ sep ++ join sep rest
  end.

Fixpoint traverse {A B : Type} (f : A -> result B) (l : list A)
  : result (list B) :=
  match l with
  | [] => inr []
  | x :: rest =>
      match f x with
      | inl e => inl e
      | inr y =>
          match traverse f rest with
          | inl e => inl e
          | inr ys => inr (y :: ys)
          end
      end
  end.

Definition digits_limit : string :=
  "Exceeds the limit (4300 digits) for integer string conversion; "
  ++ "use sys.set_int_max_str_digits() to increase the limit".

Definition repr_int (n : Z) : result string :=
  if Z.ltb (Z.abs n) (10 ^ 4300)
  then inr (NilZero.string_of_int (Z.to_int n))
  else inl (ValueError digits_limit).

Definition repr_float (x : spec_float) : string :=
  match x with
  | S754_zero false => "0.0"
  | S754_zero true => "-0.0"
  | S754_infinity false => "inf"
  | S754_infinity true => "-inf"
  | S754_nan => "nan"
  | S754_finite _ _ _ => "<float>"
  end.

Definition decimal (n : nat) : string := Py.str_of_nat n.

(** [n] in at least [width] digits, with leading zeros. *)
Definition padded (width n : nat) : string :=
  let digits := decimal n in
  let missing := width - String.length digits in
  String.concat EmptyString (repeat "0" missing) ++ digits.

Definition repr_date (d : date) : string :=
  "datetime.date(" ++ decimal (year d) ++ ", " ++ decimal (month d)
                   ++ ", " ++ decimal (day d) ++ ")".

Definition repr_offset (offset : Z) : string :=
  if Z.eqb offset 0 then "datetime.timezone.utc"
  else if Z.ltb 0 offset then
    "datetime.timezone(datetime.timedelta(seconds="
    ++ decimal (Z.to_nat (60 * offset)) ++ "))"
  else
    "datetime.timezone(datetime.timedelta(days=-1, seconds="
    ++ decimal (Z.to_nat (86400 + 60 * offset)) ++ "))".

Definition repr_datetime (t : datetime) : string :=
  "datetime.datetime(" ++ decimal (year (date_of t))
    ++ ", " ++ decimal (month (date_of t))
    ++ ", " ++ decimal (day (date_of t))
    ++ ", " ++ decimal (hour t) ++ ", " ++ decimal (minute t)
    ++ (if Nat.eqb (microsecond t) 0 then
          if Nat.eqb (second t) 0 then EmptyString
          else ", " ++ decimal (second t)
        else ", " ++ decimal (second t) ++ ", " ++ decimal (microsecond t))
    ++ match utc_offset t with
       | Some offset => ", tzinfo=" ++ repr_offset offset
       | None => EmptyString
       end
    ++ ")".

Fixpoint repr (v : value) : result string :=
  match v with
  | VNone => inr "None"
  | VBool true => inr "True"
  | VBool false => inr "False"
  | VInt n => repr_int n
  | VFloat x => inr (repr_float x)
  | VStr s => inr ("'" ++ s ++ "'")
  | VBytes data => inr ("b'" ++ data ++ "'")
  | VDate d => inr (repr_date d)
  | VDatetime t => inr (repr_datetime t)
  | VList items =>
      match traverse repr items with
      | inl e => inl e
      | inr parts => inr ("[" ++ join ", " parts ++ "]")
      end
  | VTuple items =>
      match traverse repr items with
      | inl e => inl e
      | inr [part] => inr ("(" ++ part ++ ",)")
      | inr parts => inr ("(" ++ join ", " parts ++ ")")
      end
  | VSet items =>
      match traverse repr items with
      | inl e => inl e
      | inr [] => inr "set()"
      | inr parts => inr ("{" ++ join ", " parts ++ "}")
      end
  | VDict entries =>
      match traverse
              (fun kv : value * value =>
                 let (k, v) := kv in
                 match repr k, repr v with
                 | inr rk, inr rv => inr (rk ++ ": " ++ rv)
                 | inl e, _ | _, inl e => inl e
                 end)
              entries with
      | inl e => inl e
      | inr parts => inr ("{" ++ join ", " parts ++ "}")
      end
  end.

Definition iso_date (d : date) : string :=
  padded 4 (year d) ++ "-" ++ padded 2 (month d) ++ "-" ++ padded 2 (day d).

Definition iso_offset (offset : Z) : string :=
  let minutes := Z.to_nat (Z.abs offset) in
  (if Z.ltb offset 0 then "-" else "+")
  ++ padded 2 (minutes / 60) ++ ":" ++ padded 2 (minutes mod 60).

(** [str] of a timestamp is its ISO form, with a blank before the time. *)
Definition iso_datetime (t : datetime) : string :=
  iso_date (date_of t) ++ " " ++ padded 2 (hour t) ++ ":"
    ++ padded 2 (minute t) ++ ":" ++ padded 2 (second t)
    ++ (if Nat.eqb (microsecond t) 0 then EmptyString
        else "." ++ padded 6 (microsecond t))
    ++ match utc_offset t with
       | Some offset => iso_offset offset
       | None => EmptyString
       end.

(** A placeholder puts [str(v)]: the [repr] but for timestamps. *)
Definition format (v : value) : result string :=
  match v with
  | VDate d => inr (iso_date d)
  | VDatetime t => inr (iso_datetime t)
  | _ => repr v
  end.

Definition type_error_str (why : type_error) : string :=
  match why with
  | NotIterable v => "argument of type '" ++ type_name v ++ "' is not iterable"
  | BytesLikeRequired _ => "a bytes-like object is required, not 'str'"
  | BadIndex (VStr _) => "string indices must be integers, not 'str'"
  | BadIndex (VBytes _) => "byte indices must be integers or slices, not str"
  | BadIndex (VTuple _) => "tuple indices must be integers or slices, not str"
  | BadIndex _ => "list indices must be integers or slices, not str"
  | NotSubscriptable v => "'" ++ type_name v ++ "' object is not subscriptable"
  end.

Definition exn_text (e : exn) : string :=
  match e with
  | TypeError why => type_error_str why
  | KeyError key => "'" ++ key ++ "'"
  | ValueError detail => detail
  | RecursionError =>
      "maximum recursion depth exceeded while getting the repr of an object"
  | UnicodeEncodeError detail => detail
  | FileNotFoundError => "[Errno 2] No such file or directory"
  | PermissionError => "[Errno 13] Permission denied"
  | YAMLError detail => detail
  | OtherException detail => detail
  end.

#[export] Instance runtime : Runtime :=
  {| py_format := format; exn_str := exn_text |}.

End Sample.

(** * Reference definitions

    What the validators are expected to produce, written as plain lists,
    and the vocabulary of the properties proved below. *)

(** ** How computations act on the [errors] list *)

(** [runs m r out]: whatever [errors] holds when [m] starts, [m] ends
    with outcome [r] and has appended exactly [out]. *)
Definition runs {A : Type} (m : M A) (r : result A) (out : list string)
  : Prop :=
  forall errors, m errors = (r, errors ++ out).

(** ** Expected error lists *)

(** The first exception among those of the elements of [l]. *)
Fixpoint first_fault {A : Type} (fault : A -> option exn) (l : list A)
  : option exn :=
  match l with
  | [] => None
  | x :: rest =>
      match fault x with
      | Some e => Some e
      | None => first_fault fault rest
      end
  end.

Section Expected.

Context {rt : Runtime}.

(** The text an entry shows for [v], when [v] can be formatted. *)
Definition text_of (v : value) : string :=
  match Py.str v with
  | inr shown => shown
  | inl _ => EmptyString
  end.

(** The exception, if any, that formatting [v] for an entry raises when
    [v] is not among [allowed]. *)
Definition format_fault (v : value) (allowed : list string) : option exn :=
  if Py.in_strs v allowed then None
  else match Py.str v with
       | inl e => Some e
       | inr _ => None
       end.

(** The exception, if any, that ends one loop iteration. *)
Definition rule_fault (entry : nat * value) : option exn :=
  match snd entry with
  | VDict fields =>
      match Py.dict_lookup "severity" fields with
      | Some severity => format_fault severity severities
      | None => None
      end
  | _ => None
  end.

(** The messages of one loop iteration that is not ended by an
    exception, as a list. *)
Definition rule_errors (filename : string) (entry : nat * value)
  : list string :=
  let (i, rule) := entry in
  match rule with
  | VDict fields =>
      (if Py.dict_has "id" fields then []
       else [msg_rule_missing filename i "id"])
      ++ (if Py.dict_has "description" fields then []
          else [msg_rule_missing filename i "description"])
      ++ match Py.dict_lookup "severity" fields with
         | None => [msg_rule_missing filename i "severity"]
         | Some severity =>
             if Py.in_strs severity severities then []
             else [msg_rule_severity filename i (text_of severity)]
         end
  | _ => [msg_rule_not_dict filename i]
  end.

Definition missing_key_errors (filename : string) (has : string -> bool)
  : list string :=
  flat_map (fun key => if has key then [] else [msg_missing_key filename key])
           required_keys.

Definition str_field_errors (entries : list (value * value))
  (key msg : string) : list string :=
  match Py.dict_lookup key entries with
  | Some v => if Py.isinstance_str v then [] else [msg]
  | None => []
  end.

Definition rules_errors (filename : string) (entries : list (value * value))
  : list string :=
  match Py.dict_lookup "rules" entries with
  | Some (VList items) => flat_map (rule_errors filename) (Py.enumerate items)
  | Some _ => [msg_rules_type filename]
  | None => []
  end.

Definition structure_errors (filename : string)
  (entries : list (value * value)) : list string :=
  missing_key_errors filename (fun key => Py.dict_has key entries)
  ++ str_field_errors entries "name" (msg_name_type filename)
  ++ str_field_errors entries "version" (msg_version_type filename)
  ++ rules_errors filename entries.

(** The exception, if any, that ends the structural validation of a
    mapping: the first one raised in the loop over the rules. *)
Definition structure_fault (entries : list (value * value)) : option exn :=
  match Py.dict_lookup "rules" entries with
  | Some (VList items) => first_fault rule_fault (Py.enumerate items)
  | _ => None
  end.

(** The exception, if any, that ends the content validation. *)
Definition content_fault (policy : value) : option exn :=
  match policy with
  | VDict ((_ :: _) as entries) =>
      match Py.dict_lookup "type" entries with
      | Some type => format_fault type valid_types
      | None => None
      end
  | _ => None
  end.

(** On a string, [key in policy] is a substring test, and on a list, a
    tuple or a set an element test: if it succeeds for a required key,
    the subscription that follows raises. *)
Definition mentions_required_key (policy : value) : bool :=
  match policy with
  | VStr s => existsb (fun key => Py.str_contains key s) required_keys
  | VList items | VTuple items | VSet items =>
      existsb (fun key => existsb (Py.is_str key) items) required_keys
  | _ => false
  end.

(** The [TypeError], if any, that ends the structural validation of a
    document that is not a mapping. *)
Definition non_mapping_fault (policy : value) : option type_error :=
  match policy with
  | VDict _ => None
  | VStr _ | VList _ | VTuple _ =>
      if mentions_required_key policy then Some (BadIndex policy) else None
  | VSet _ =>
      if mentions_required_key policy then Some (NotSubscriptable policy)
      else None
  | VBytes _ => Some (BytesLikeRequired policy)
  | _ => Some (NotIterable policy)
  end.

Definition content_errors (filename : string) (policy : value)
  : list string :=
  if negb (Py.truthy policy) then [msg_empty filename]
  else
    match policy with
    | VDict entries =>
        match Py.dict_lookup "type" entries with
        | Some type =>
            if Py.in_strs type valid_types then []
            else [msg_policy_type filename (text_of type)]
        | None => []
        end
    | _ => [msg_not_object filename]
    end.

End Expected.

(** ** Recognising and counting entries *)

(** An entry of the form "<filename>: Missing required key '...". *)
Definition is_missing_key_entry (filename e : string) : bool :=
  String.prefix (filename ++ ": Missing required key '") e.

(** An entry of the form "<filename>: Rule ...". *)
Definition is_rule_entry (filename e : string) : bool :=
  String.prefix (filename ++ ": Rule ") e.

(** No blank occurs in [s]. *)
Fixpoint blank_free (s : string) : bool :=
  match s with
  | EmptyString => true
  | String c rest => negb (Ascii.eqb c " ") && blank_free rest
  end.

(** [key in policy] evaluates to [False]. *)
Definition key_absent (policy : value) (key : string) : bool :=
  match Py.contains key policy with
  | inr false => true
  | _ => false
  end.


(** The minimal valid policy of the specification's first scenario. *)
Definition minimal_policy : value :=
  VDict [ (VStr "name", VStr "p1");
          (VStr "version", VStr "1.0");
          (VStr "rules",
            VList [ VDict [ (VStr "id", VStr "r1");
                            (VStr "description", VStr "d");
                            (VStr "severity", VStr "high") ] ]) ].

(** ** Conforming documents, faults and the files of a run *)

(** A rule with [id], [description] and an allowed [severity]. *)
Definition rule_conforms (rule : value) : bool :=
  match rule with
  | VDict fields =>
      Py.dict_has "id" fields
      && Py.dict_has "description" fields
      && match Py.dict_lookup "severity" fields with
         | Some severity => Py.in_strs severity severities
         | None => false
         end
  | _ => false
  end.

(** A mapping with a string [name], a string [version], a list [rules] of
    conforming rules and, when [type] is present, an allowed type. *)
Definition conforms (policy : value) : bool :=
  match policy with
  | VDict entries =>
      match Py.dict_lookup "name" entries, Py.dict_lookup "version" entries,
            Py.dict_lookup "rules" entries with
      | Some (VStr _), Some (VStr _), Some (VList items) =>
          forallb rule_conforms items
          && match Py.dict_lookup "type" entries with
             | Some type => Py.in_strs type valid_types
             | None => true
             end
      | _, _, _ => false
      end
  | _ => false
  end.

Definition is_sequence (v : value) : bool :=
  match v with VList _ => true | _ => false end.

(** An entry that starts with the path of its file and a colon. *)
Definition names_file (filepath e : string) : bool :=
  String.prefix (filepath ++ ": ") e.

(** An entry that is neither a missing-key entry nor a per-rule entry. *)
Definition is_type_entry (filename e : string) : bool :=
  negb (is_missing_key_entry filename e) && negb (is_rule_entry filename e).

(** The exception, if any, that keeps a file from being decoded, and
    whether the parser raised it. *)
Definition fault (io : file_io) : option (bool * exn) :=
  match open_file io with
  | inl e => Some (false, e)
  | inr _ =>
      match safe_load io with
      | inl e => Some (true, e)
      | inr _ => None
      end
  end.

(** The single entry reported for a fault: only an exception of the
    parser's own class, raised while decoding, is a parsing error. *)
Definition fault_entry `{Runtime} (filepath : string) (in_parser : bool)
  (e : exn) : string :=
  if in_parser && is_yaml_error e then msg_yaml_error filepath (exn_str e)
  else if is_file_not_found e then msg_not_found filepath
  else if is_permission_error e then msg_permission filepath
  else msg_unexpected filepath (exn_str e).

(** The paths a run lints, in the order of the patterns and, for each
    pattern, in the order [glob] yields them. *)
Definition linted (w : world) (files : list string)
  : list (string * file_io) :=
  flat_map (fun pattern =>
              filter (fun entry => is_policy_file w (fst entry))
                     (yielded (glob w pattern)))
           files.

Definition collected_errors `{Runtime} (w : world) (files : list string)
  : list string :=
  flat_map (fun entry => lint_policy_file (fst entry) (snd entry))
           (linted w files).

(** No [glob] of the run raises. *)
Definition globs_succeed (w : world) (files : list string) : Prop :=
  forall pattern, In pattern files -> failure (glob w pattern) = None.

(** ** What a run prints *)

(** The standard output takes every text of [texts]. *)
Definition accepts (c : console) (texts : list string) : Prop :=
  forall text, In text texts -> write_fault c text = None.

(** The texts of verbose mode that precede the report, one per call of
    [print]. *)
Definition progress_lines (verbose : bool) (done : list (string * file_io))
  : list string :=
  if verbose
  then map (fun entry => msg_linting (fst entry)) done
       ++ [msg_processed (length done)]
  else [].

(** The texts of the report for the errors of [files_processed] files,
    one per call of [print]. *)
Definition report_lines (all_errors : list string) (files_processed : nat)
  : list string :=
  match all_errors with
  | [] => [msg_passed files_processed]
  | _ :: _ => msg_found (length all_errors) :: map msg_error_line all_errors
  end.

(** The "Linting" texts of verbose mode. *)
Definition linting_lines (verbose : bool) (done : list (string * file_io))
  : list string :=
  if verbose then map (fun entry => msg_linting (fst entry)) done else [].

(** What a sequence of [print] calls leaves on the standard output, and
    the exception of the first text the stream refuses, if any: the calls
    after that one are not made. *)
Fixpoint printed_until (c : console) (texts : list string)
  : list string * option exn :=
  match texts with
  | [] => ([], None)
  | text :: rest =>
      match write_fault c text with
      | Some e => ([], Some e)
      | None =>
          let (done, refused) := printed_until c rest in
          (text :: done, refused)
      end
  end.

(** How a computation ends that calls [print] on each of [texts] and,
    if none is refused, ends with [r]; and what it has printed. *)
Definition outcome {A : Type} (c : console) (texts : list string)
  (r : result A) : result A * list string :=
  match printed_until c texts with
  | (done, None) => (r, done)
  | (done, Some e) => (inl e, done)
  end.

(** [emits c m texts r]: whatever has been printed when [m] starts, [m]
    behaves as [outcome c texts r] says. *)
Definition emits {A : Type} (c : console) (m : M A) (texts : list string)
  (r : result A) : Prop :=
  forall out,
    m out = (fst (outcome c texts r), out ++ snd (outcome c texts r)).

(** The texts of a whole run in which no [glob] raises, one per call of
    [print], in the order of the calls. *)
Definition run_texts `{Runtime} (w : world) (files : list string)
  (verbose : bool) : list string :=
  progress_lines verbose (linted w files)
  ++ report_lines (collected_errors w files) (length (linted w files)).

(** * Lemmas *)

(** ** Computations *)

Section Runs.

Context {A B : Type}.

Lemma runs_ret (a : A) : runs (ret a) (inr a) [].
Proof. intros errors. unfold ret. now rewrite app_nil_r. Qed.

Lemma runs_lift (r : result A) : runs (lift r) r [].
Proof. intros errors. unfold lift. now rewrite app_nil_r. Qed.

Lemma runs_bind_ok (m : M A) (k : A -> M B) a out1 r out2 :
  runs m (inr a) out1 -> runs (k a) r out2 ->
  runs (bind m k) r (out1 ++ out2).
Proof.
  intros Hm Hk errors. unfold bind.
  rewrite Hm, Hk. now rewrite app_assoc.
Qed.

Lemma runs_bind_raise (m : M A) (k : A -> M B) e out :
  runs m (inl e) out -> runs (bind m k) (inl e) out.
Proof. intros Hm errors. unfold bind. now rewrite Hm. Qed.

Lemma runs_lift_bind (a : A) (k : A -> M B) r out :
  runs (k a) r out -> runs (bind (lift (inr a)) k) r out.
Proof. intros Hk errors. unfold bind, lift. apply Hk. Qed.

(** After a computation that returns, a continuation goes on from the
    extended list. *)
Lemma bind_after (m : M A) (k : A -> M B) a out errors :
  runs m (inr a) out -> bind m k errors = k a (errors ++ out).
Proof. intros Hm. unfold bind. now rewrite Hm. Qed.

End Runs.

Lemma runs_append (msg : string) : runs (append msg) (inr tt) [msg].
Proof. intros errors. reflexivity. Qed.

Lemma runs_when (c : bool) (m : M unit) out :
  runs m (inr tt) out ->
  runs (when c m) (inr tt) (if c then out else []).
Proof. intros Hm. destruct c; simpl; [exact Hm | apply runs_ret]. Qed.

Lemma runs_seq (m k : M unit) out1 r out2 :
  runs m (inr tt) out1 -> runs k r out2 ->
  runs (bind m (fun _ => k)) r (out1 ++ out2).
Proof. intros Hm Hk. now apply runs_bind_ok with tt. Qed.

Lemma runs_for_each {A : Type} (l : list A) (body : A -> M unit)
  (g : A -> list string) :
  (forall x, In x l -> runs (body x) (inr tt) (g x)) ->
  runs (for_each l body) (inr tt) (flat_map g l).
Proof.
  induction l as [| x rest IH]; intros Hbody; simpl.
  - apply runs_ret.
  - apply runs_seq.
    + apply Hbody. now left.
    + apply IH. intros y Hy. apply Hbody. now right.
Qed.

Lemma first_fault_none {A : Type} (fault : A -> option exn) (l : list A) :
  first_fault fault l = None -> forall x, In x l -> fault x = None.
Proof.
  induction l as [| y rest IH]; simpl; [intros _ x [] |].
  destruct (fault y) eqn:Hy; [discriminate |].
  intros H x [<- | Hx]; [exact Hy | now apply IH].
Qed.

(** A loop whose iterations either return, having appended what [g]
    gives, or raise what [fault] gives: it runs to the first fault. *)
Lemma for_each_faults {A : Type} (l : list A) (body : A -> M unit)
  (fault : A -> option exn) (g : A -> list string) :
  (forall x errors,
      match fault x with
      | None => body x errors = (inr tt, errors ++ g x)
      | Some e => fst (body x errors) = inl e
      end) ->
  forall errors,
    match first_fault fault l with
    | None => for_each l body errors = (inr tt, errors ++ flat_map g l)
    | Some e => fst (for_each l body errors) = inl e
    end.
Proof.
  intros Hbody. induction l as [| x rest IH]; intros errors; simpl.
  - unfold ret. now rewrite app_nil_r.
  - specialize (Hbody x errors). unfold bind.
    destruct (fault x) as [e |].
    + destruct (body x errors) as [r errors']. simpl in Hbody.
      now subst r.
    + rewrite Hbody. specialize (IH (errors ++ g x)).
      destruct (first_fault fault rest) as [e |]; [exact IH |].
      rewrite IH. now rewrite app_assoc.
Qed.

Lemma returning_errors_runs {body : M unit} {r out} :
  runs body r out ->
  returning_errors body =
    match r with inr _ => inr out | inl e => inl e end.
Proof.
  intros H. unfold returning_errors. rewrite (H []).
  now destruct r.
Qed.

(** ** Strings and formatted indices *)

Arguments Py.str_of_nat : simpl never.
Arguments Py.in_strs : simpl never.
Arguments Py.str : simpl never.

Lemma append_inv_head (p a b : string) :
  (p ++ a = p ++ b)%string -> a = b.
Proof.
  induction p as [| c p IH]; simpl; intros H.
  - exact H.
  - injection H as H. now apply IH.
Qed.

Lemma prefix_append (p a b : string) :
  String.prefix (p ++ a) (p ++ b) = String.prefix a b.
Proof.
  induction p as [| c p IH]; simpl.
  - reflexivity.
  - destruct (ascii_dec c c) as [_ | Hc]; [exact IH | now elim Hc].
Qed.

Lemma blank_free_split (d1 d2 r1 r2 : string) :
  blank_free d1 = true -> blank_free d2 = true ->
  (d1 ++ String " " r1 = d2 ++ String " " r2)%string ->
  d1 = d2 /\ r1 = r2.
Proof.
  revert d2. induction d1 as [| c d1 IH]; intros [| c2 d2]; simpl;
    intros H1 H2 H.
  - injection H as H. now split.
  - injection H as Hc _. subst c2. discriminate H2.
  - injection H as Hc _. subst c. discriminate H1.
  - injection H as Hc H. subst c2.
    apply andb_true_iff in H1 as [_ H1]. apply andb_true_iff in H2 as [_ H2].
    destruct (IH d2 H1 H2 H) as [-> ->]. now split.
Qed.

Lemma string_of_uint_blank_free (d : Decimal.uint) :
  blank_free (NilEmpty.string_of_uint d) = true.
Proof. induction d; simpl; auto. Qed.

Lemma str_of_nat_blank_free (i : nat) : blank_free (Py.str_of_nat i) = true.
Proof. apply string_of_uint_blank_free. Qed.

Lemma str_of_nat_inj (i j : nat) : Py.str_of_nat i = Py.str_of_nat j -> i = j.
Proof.
  unfold Py.str_of_nat. intros H.
  apply DecimalNat.Unsigned.to_uint_inj.
  pose proof (NilEmpty.usu (Nat.to_uint i)) as Hi.
  rewrite H, NilEmpty.usu in Hi. now injection Hi.
Qed.

(** Two texts that start with a formatted index followed by a blank agree
    on the index and on what follows. *)
Lemma indexed_text_inv (i j : nat) (r1 r2 : string) :
  (Py.str_of_nat i ++ String " " r1
   = Py.str_of_nat j ++ String " " r2)%string ->
  i = j /\ r1 = r2.
Proof.
  intros H.
  apply blank_free_split in H as [Hd Hr]; auto using str_of_nat_blank_free.
  split; [now apply str_of_nat_inj | exact Hr].
Qed.

Lemma prefix_empty (s : string) : String.prefix EmptyString s = true.
Proof. now destruct s. Qed.

Lemma is_entry_append (filename lit rest : string) :
  String.prefix (filename ++ lit) (filename ++ rest) = String.prefix lit rest.
Proof. apply prefix_append. Qed.

Ltac recognise :=
  unfold is_missing_key_entry, is_rule_entry, msg_missing_key, msg_name_type,
    msg_version_type, msg_rules_type, msg_rule_not_dict, msg_rule_missing,
    msg_rule_severity;
  rewrite is_entry_append; simpl; try apply prefix_empty; reflexivity.

(** [H] equates two messages of different templates. *)
Ltac msg_absurd H :=
  unfold msg_missing_key, msg_name_type, msg_version_type, msg_rules_type,
    msg_rule_not_dict, msg_rule_missing, msg_rule_severity in H;
  apply append_inv_head in H; simpl in H;
  first [ discriminate H
        | injection H as H; apply indexed_text_inv in H as [_ H];
          discriminate H ].

Lemma filter_none {A : Type} (p : A -> bool) (l : list A) :
  (forall x, In x l -> p x = false) -> filter p l = [].
Proof.
  induction l as [| x rest IH]; simpl; intros H; [reflexivity |].
  rewrite (H x) by now left. apply IH. intros y Hy. apply H. now right.
Qed.

Lemma filter_all {A : Type} (p : A -> bool) (l : list A) :
  (forall x, In x l -> p x = true) -> filter p l = l.
Proof.
  induction l as [| x rest IH]; simpl; intros H; [reflexivity |].
  rewrite (H x) by now left. f_equal. apply IH. intros y Hy. apply H. now right.
Qed.

(** ** Python primitives *)

Lemma dict_has_lookup (key : string) (entries : list (value * value)) :
  Py.dict_has key entries =
    match Py.dict_lookup key entries with Some _ => true | None => false end.
Proof.
  induction entries as [| [k v] rest IH]; simpl.
  - reflexivity.
  - destruct (Py.is_str key k); simpl; [reflexivity | exact IH].
Qed.

Lemma enumerate_from_In {A : Type} (l : list A) (start i : nat) (x : A) :
  In (i, x) (Py.enumerate_from start l) <->
  start <= i /\ nth_error l (i - start) = Some x.
Proof.
  revert start. induction l as [| y rest IH]; intros start; simpl.
  - split; [tauto |]. intros [_ H]. now destruct (i - start).
  - rewrite IH. split.
    + intros [H | [Hle H]].
      * injection H as <- <-. split; [lia |]. now rewrite Nat.sub_diag.
      * split; [lia |]. replace (i - start) with (S (i - S start)) by lia.
        exact H.
    + intros [Hle H]. destruct (i - start) as [| n] eqn:E.
      * left. simpl in H. injection H as <-. f_equal. lia.
      * right. split; [lia |]. simpl in H.
        replace (i - S start) with n by lia. exact H.
Qed.

Lemma enumerate_In {A : Type} (l : list A) (i : nat) (x : A) :
  In (i, x) (Py.enumerate l) <-> nth_error l i = Some x.
Proof.
  unfold Py.enumerate. rewrite enumerate_from_In, Nat.sub_0_r.
  split; [tauto | split; [lia | assumption]].
Qed.

(** ** What the structural validator appends *)

Section Characterisation.

Context {rt : Runtime}.

Lemma check_rule_run (filename : string) (entry : nat * value)
  (errors : list string) :
  match rule_fault entry with
  | None =>
      check_rule filename entry errors
      = (inr tt, errors ++ rule_errors filename entry)
  | Some e => fst (check_rule filename entry errors) = inl e
  end.
Proof.
  destruct entry as [i rule]. unfold rule_fault. simpl snd.
  destruct rule; simpl; try reflexivity.
  unfold check_rule_fields, bind, lift, when, append, ret, format_fault,
    text_of.
  simpl. rewrite (dict_has_lookup "severity").
  destruct (Py.dict_has "id" entries), (Py.dict_has "description" entries),
    (Py.dict_lookup "severity" entries) as [severity |]; simpl;
    try destruct (Py.in_strs severity severities); simpl;
    try destruct (Py.str severity); simpl;
    rewrite <- ?app_assoc, ?app_nil_r; reflexivity.
Qed.

Lemma check_str_field_runs (entries : list (value * value))
  (key msg : string) :
  runs (check_str_field (VDict entries) key msg) (inr tt)
       (str_field_errors entries key msg).
Proof.
  intros errors.
  unfold check_str_field, str_field_errors, bind, lift, when, append, ret.
  simpl. rewrite dict_has_lookup.
  destruct (Py.dict_lookup key entries) as [v |]; simpl;
    try destruct (Py.isinstance_str v); simpl;
    rewrite ?app_nil_r; reflexivity.
Qed.

Lemma missing_keys_runs (entries : list (value * value))
  (filename : string) :
  runs (for_each required_keys
          (fun key =>
             bind (lift (Py.contains key (VDict entries)))
                  (fun present =>
                     when (negb present)
                          (append (msg_missing_key filename key)))))
       (inr tt)
       (missing_key_errors filename (fun key => Py.dict_has key entries)).
Proof.
  apply runs_for_each. intros key _ errors.
  unfold bind, lift, when, append, ret. simpl.
  destruct (Py.dict_has key entries); simpl; rewrite ?app_nil_r; reflexivity.
Qed.

(** The structural validator on a mapping: it returns the expected list,
    unless formatting an invalid severity raises. *)
Lemma structure_body_dict (entries : list (value * value))
  (filename : string) (errors : list string) :
  match structure_fault entries with
  | None =>
      structure_body (VDict entries) filename errors
      = (inr tt, errors ++ structure_errors filename entries)
  | Some e => fst (structure_body (VDict entries) filename errors) = inl e
  end.
Proof.
  unfold structure_body, structure_errors.
  rewrite (bind_after _ _ _ _ _ (missing_keys_runs entries filename)).
  rewrite (bind_after _ _ _ _ _ (check_str_field_runs entries _ _)).
  rewrite (bind_after _ _ _ _ _ (check_str_field_runs entries _ _)).
  rewrite <- !app_assoc.
  set (top := errors ++ _ ++ _ ++ _).
  simpl Py.contains. simpl Py.getitem. unfold bind, lift.
  rewrite dict_has_lookup.
  unfold structure_fault, rules_errors.
  destruct (Py.dict_lookup "rules" entries) as [rules |]; simpl when.
  - destruct rules;
      try (unfold append, top; rewrite <- ?app_assoc; reflexivity).
    pose proof (for_each_faults (Py.enumerate items) (check_rule filename)
                  rule_fault (rule_errors filename)
                  (check_rule_run filename) top) as H.
    destruct (first_fault rule_fault (Py.enumerate items)); [exact H |].
    rewrite H. unfold top. now rewrite <- ?app_assoc.
  - unfold ret, top. now rewrite <- ?app_assoc, ?app_nil_r.
Qed.

Lemma validate_policy_structure_dict (entries : list (value * value))
  (filename : string) :
  validate_policy_structure (VDict entries) filename
  = match structure_fault entries with
    | Some e => inl e
    | None => inr (structure_errors filename entries)
    end.
Proof.
  unfold validate_policy_structure, returning_errors.
  pose proof (structure_body_dict entries filename []) as H.
  destruct (structure_fault entries).
  - destruct (structure_body (VDict entries) filename []) as [r out].
    simpl in H. now subst r.
  - now rewrite H.
Qed.

(** A returned list is the expected one. *)
Lemma validate_policy_structure_returned (entries : list (value * value))
  (filename : string) (errors : list string) :
  validate_policy_structure (VDict entries) filename = inr errors ->
  structure_fault entries = None
  /\ errors = structure_errors filename entries.
Proof.
  rewrite validate_policy_structure_dict.
  destruct (structure_fault entries); [discriminate |].
  intros [= <-]. now split.
Qed.

(** The structural validator on a document that is not a mapping: the
    three missing-key entries, or a [TypeError]. *)
Lemma validate_policy_structure_non_mapping (policy : value)
  (filename : string) :
  Py.isinstance_dict policy = false ->
  validate_policy_structure policy filename
  = match non_mapping_fault policy with
    | Some why => inl (TypeError why)
    | None => inr (map (msg_missing_key filename) required_keys)
    end.
Proof.
  destruct policy; try discriminate; intros _; try reflexivity;
    unfold validate_policy_structure, returning_errors, structure_body,
      check_str_field, bind, lift, when, append, ret, non_mapping_fault,
      mentions_required_key; simpl.
  - destruct (Py.str_contains "name" s), (Py.str_contains "version" s),
      (Py.str_contains "rules" s); reflexivity.
  - destruct (existsb (Py.is_str "name") items),
      (existsb (Py.is_str "version") items),
      (existsb (Py.is_str "rules") items); reflexivity.
  - destruct (existsb (Py.is_str "name") items),
      (existsb (Py.is_str "version") items),
      (existsb (Py.is_str "rules") items); reflexivity.
  - destruct (existsb (Py.is_str "name") items),
      (existsb (Py.is_str "version") items),
      (existsb (Py.is_str "rules") items); reflexivity.
Qed.

(** What a returned list is, for any document. *)
Lemma validate_policy_structure_returned_any (policy : value)
  (filename : string) (errors : list string) :
  validate_policy_structure policy filename = inr errors ->
  (exists entries,
      policy = VDict entries
      /\ structure_fault entries = None
      /\ errors = structure_errors filename entries)
  \/ (Py.isinstance_dict policy = false
      /\ non_mapping_fault policy = None
      /\ errors = map (msg_missing_key filename) required_keys).
Proof.
  destruct (Py.isinstance_dict policy) eqn:Hdict.
  - destruct policy; try discriminate Hdict. intros H.
    apply validate_policy_structure_returned in H as [Hfault ->]. eauto.
  - rewrite validate_policy_structure_non_mapping by exact Hdict.
    intros H. right. split; [reflexivity |].
    destruct (non_mapping_fault policy); [discriminate H |].
    injection H as <-. now split.
Qed.


Lemma format_fault_none (v : value) (allowed : list string) :
  format_fault v allowed = None ->
  Py.in_strs v allowed = false -> Py.str v = inr (text_of v).
Proof.
  unfold format_fault, text_of. intros H Hbad. rewrite Hbad in H.
  destruct (Py.str v); [discriminate H | reflexivity].
Qed.

End Characterisation.

(** ** What the content validator and the orchestration produce *)

Section Orchestration.

Context {rt : Runtime}.

Lemma content_body_run (policy : value) (filename : string)
  (errors : list string) :
  match content_fault policy with
  | None =>
      content_body policy filename errors
      = (inr tt, errors ++ content_errors filename policy)
  | Some e => fst (content_body policy filename errors) = inl e
  end.
Proof.
  unfold content_body, content_errors, content_fault.
  destruct policy;
    try (simpl; try reflexivity; destruct (negb _); reflexivity).
  destruct entries as [| entry rest]; [reflexivity |].
  change (Py.truthy (VDict (entry :: rest))) with true.
  change (Py.isinstance_dict (VDict (entry :: rest))) with true.
  cbv beta iota.
  remember (entry :: rest) as entries eqn:Hentries.
  unfold bind, lift, when, append, ret, format_fault, text_of. simpl.
  rewrite dict_has_lookup.
  destruct (Py.dict_lookup "type" entries) as [type |]; simpl;
    try destruct (Py.in_strs type valid_types); simpl;
    try destruct (Py.str type); simpl;
    rewrite ?app_nil_r; reflexivity.
Qed.

Lemma validate_policy_content_eq (policy : value) (filename : string) :
  validate_policy_content policy filename
  = match content_fault policy with
    | Some e => inl e
    | None => inr (content_errors filename policy)
    end.
Proof.
  unfold validate_policy_content, returning_errors.
  pose proof (content_body_run policy filename []) as H.
  destruct (content_fault policy).
  - destruct (content_body policy filename []) as [r out].
    simpl in H. now subst r.
  - now rewrite H.
Qed.


(** No exception leaves [lint_policy_file]: its body always ends
    normally, whatever the file system and the parser did. *)
Lemma lint_body_returns (filepath : string) (io : file_io)
  (errors : list string) :
  fst (lint_body filepath io errors) = inr tt.
Proof.
  unfold lint_body. unfold try_except at 1.
  match goal with
  | |- context [match ?run with _ => _ end] =>
      destruct run as [[e | []] errors']
  end; [| reflexivity].
  simpl. destruct (is_file_not_found e); [reflexivity |].
  destruct (is_permission_error e); reflexivity.
Qed.

(** A decoded, non-null document goes through both validators; an
    exception of either one ends in an [except] clause, after the
    entries of the structural validator if it is the second one's. *)
Lemma lint_policy_file_decoded (policy : value) (filepath : string) :
  lint_policy_file filepath (decoded policy)
  = if Py.is_none policy then [msg_empty_yaml filepath]
    else
      match validate_policy_structure policy filepath with
      | inr structural =>
          structural
          ++ match validate_policy_content policy filepath with
             | inr content => content
             | inl e => [fault_entry filepath true e]
             end
      | inl e => [fault_entry filepath true e]
      end.
Proof.
  unfold lint_policy_file, lint_body, try_except, decoded, bind, lift,
    extend, fault_entry.
  simpl. destruct (Py.is_none policy); [reflexivity |].
  destruct (validate_policy_structure policy filepath) as [e | structural].
  - destruct e; reflexivity.
  - destruct (validate_policy_content policy filepath) as [e | content].
    + destruct e; reflexivity.
    + reflexivity.
Qed.

End Orchestration.

(** ** Telling the messages apart *)

Section Messages.

Context {rt : Runtime}.

Lemma missing_key_errors_In filename has e :
  In e (missing_key_errors filename has) ->
  exists key, In key required_keys /\ e = msg_missing_key filename key.
Proof.
  unfold missing_key_errors. rewrite in_flat_map.
  intros [key [Hkey H]]. exists key. split; [exact Hkey |].
  destruct (has key); simpl in H; [contradiction |].
  now destruct H as [<- | []].
Qed.

Lemma str_field_errors_In entries key msg e :
  In e (str_field_errors entries key msg) -> e = msg.
Proof.
  unfold str_field_errors.
  destruct (Py.dict_lookup key entries) as [v |]; [| contradiction].
  destruct (Py.isinstance_str v); simpl; [contradiction |].
  now intros [<- | []].
Qed.

(** Every message of a loop iteration starts with the rule's index. *)
Lemma rule_errors_shape filename i rule e :
  In e (rule_errors filename (i, rule)) ->
  exists rest,
    e = (filename ++ ": Rule " ++ Py.str_of_nat i ++ String " " rest)%string.
Proof.
  unfold rule_errors, msg_rule_not_dict, msg_rule_missing, msg_rule_severity.
  destruct rule; simpl;
    try (intros [<- | []]; eexists; reflexivity).
  rewrite !in_app_iff.
  destruct (Py.dict_has "id" entries),
    (Py.dict_has "description" entries),
    (Py.dict_lookup "severity" entries) as [severity |];
    try destruct (Py.in_strs severity severities); simpl;
    intuition (subst; eexists; reflexivity).
Qed.

Lemma rules_errors_In filename entries e :
  In e (rules_errors filename entries) ->
  e = msg_rules_type filename
  \/ exists items i rule,
      Py.dict_lookup "rules" entries = Some (VList items)
      /\ nth_error items i = Some rule
      /\ In e (rule_errors filename (i, rule)).
Proof.
  unfold rules_errors.
  destruct (Py.dict_lookup "rules" entries) as [rules |]; [| contradiction].
  destruct rules; simpl; try (intros [<- | []]; now left).
  rewrite in_flat_map. intros [[i rule] [Hin He]]. right.
  exists items, i, rule. rewrite <- enumerate_In. auto.
Qed.

Lemma structure_errors_In filename entries e :
  In e (structure_errors filename entries) ->
  (exists key, In key required_keys /\ e = msg_missing_key filename key)
  \/ e = msg_name_type filename
  \/ e = msg_version_type filename
  \/ e = msg_rules_type filename
  \/ exists items i rule,
      Py.dict_lookup "rules" entries = Some (VList items)
      /\ nth_error items i = Some rule
      /\ In e (rule_errors filename (i, rule)).
Proof.
  unfold structure_errors. rewrite !in_app_iff.
  intros [H | [H | [H | H]]].
  - left. eapply missing_key_errors_In, H.
  - right; left. eapply str_field_errors_In, H.
  - right; right; left. eapply str_field_errors_In, H.
  - right; right; right. now apply rules_errors_In.
Qed.

Lemma rule_errors_missing_severity filename i j rule :
  In (msg_rule_missing filename i "severity")
     (rule_errors filename (j, rule)) ->
  i = j /\ exists fields,
      rule = VDict fields /\ Py.dict_lookup "severity" fields = None.
Proof.
  unfold rule_errors.
  destruct rule; simpl;
    try (intros [H | []]; msg_absurd H).
  rewrite !in_app_iff. intros [H | [H | H]].
  - destruct (Py.dict_has "id" entries); simpl in H; [contradiction |].
    destruct H as [H | []]. msg_absurd H.
  - destruct (Py.dict_has "description" entries); simpl in H;
      [contradiction |].
    destruct H as [H | []]. msg_absurd H.
  - destruct (Py.dict_lookup "severity" entries) as [severity |] eqn:Hsev.
    + destruct (Py.in_strs severity severities); simpl in H;
        [contradiction |].
      destruct H as [H | []]. msg_absurd H.
    + destruct H as [H | []].
      unfold msg_rule_missing in H. apply append_inv_head in H.
      simpl in H. injection H as H.
      apply indexed_text_inv in H as [Hij _]. split; [now symmetry | eauto].
Qed.

Lemma rule_errors_invalid_severity filename i j rule shown :
  In (msg_rule_severity filename i shown)
     (rule_errors filename (j, rule)) ->
  i = j /\ exists fields severity,
      rule = VDict fields
      /\ Py.dict_lookup "severity" fields = Some severity.
Proof.
  unfold rule_errors.
  destruct rule; simpl;
    try (intros [H | []]; msg_absurd H).
  rewrite !in_app_iff. intros [H | [H | H]].
  - destruct (Py.dict_has "id" entries); simpl in H; [contradiction |].
    destruct H as [H | []]. msg_absurd H.
  - destruct (Py.dict_has "description" entries); simpl in H;
      [contradiction |].
    destruct H as [H | []]. msg_absurd H.
  - destruct (Py.dict_lookup "severity" entries) as [severity |] eqn:Hsev.
    + destruct (Py.in_strs severity severities); simpl in H;
        [contradiction |].
      destruct H as [H | []].
      unfold msg_rule_severity in H. apply append_inv_head in H.
      simpl in H. injection H as H.
      apply indexed_text_inv in H as [Hij _]. split; [now symmetry | eauto].
    + destruct H as [H | []]. msg_absurd H.
Qed.

End Messages.

(** ** Counting and ordering the structural errors *)

Section Counting.

Context {rt : Runtime}.

Lemma missing_key_errors_eq filename has :
  missing_key_errors filename has
  = map (msg_missing_key filename)
        (filter (fun key => negb (has key)) required_keys).
Proof.
  unfold missing_key_errors. simpl.
  destruct (has "name"), (has "version"), (has "rules"); reflexivity.
Qed.





Lemma filter_rule_entries filename entries :
  filter (is_rule_entry filename) (structure_errors filename entries)
  = match Py.dict_lookup "rules" entries with
    | Some (VList items) =>
        flat_map (rule_errors filename) (Py.enumerate items)
    | _ => []
    end.
Proof.
  unfold structure_errors. rewrite !filter_app.
  rewrite (filter_none _ (missing_key_errors _ _)).
  2:{ intros e He. apply missing_key_errors_In in He as [key [_ ->]].
      recognise. }
  rewrite !(filter_none _ (str_field_errors _ _ _)).
  2,3: intros e He; apply str_field_errors_In in He as ->; recognise.
  simpl. unfold rules_errors.
  destruct (Py.dict_lookup "rules" entries) as [rules |]; [| reflexivity].
  destruct rules; try (apply filter_none; intros e [<- | []]; recognise).
  apply filter_all. intros e He. apply in_flat_map in He as [[i rule] [_ He]].
  apply rule_errors_shape in He as [rest ->]. recognise.
Qed.

Lemma filter_missing_key_entries filename entries :
  filter (is_missing_key_entry filename) (structure_errors filename entries)
  = map (msg_missing_key filename)
        (filter (key_absent (VDict entries)) required_keys).
Proof.
  unfold structure_errors. rewrite !filter_app.
  rewrite !(filter_none _ (str_field_errors _ _ _)).
  2,3: intros e He; apply str_field_errors_In in He as ->; recognise.
  rewrite (filter_none _ (rules_errors _ _)).
  2:{ intros e He. apply rules_errors_In in He
        as [-> | [items [i [rule [_ [_ He]]]]]]; [recognise |].
      apply rule_errors_shape in He as [rest ->]. recognise. }
  rewrite !app_nil_r, filter_all.
  2:{ intros e He. apply missing_key_errors_In in He as [key [_ ->]].
      recognise. }
  rewrite missing_key_errors_eq. reflexivity.
Qed.

Lemma filter_missing_key_all filename :
  filter (is_missing_key_entry filename)
         (map (msg_missing_key filename) required_keys)
  = map (msg_missing_key filename) required_keys.
Proof.
  apply filter_all. intros e He. apply in_map_iff in He as [key [<- _]].
  recognise.
Qed.

End Counting.



(** * Properties of the validators *)

Section Properties.

Context {rt : Runtime}.

(** C1 (the code departs from it): [validate_policy_structure] has no
    guard for a document that is not a mapping.  On the number 42 it
    raises [TypeError] at its first [in] test; the content validator, run
    alone, answers "Policy must be a YAML object"; and
    [lint_policy_file], which calls the unguarded validator first, ends
    in its last [except] clause with the single "Unexpected error"
    entry. *)
Theorem validate_policy_structure_raises_on_number (filename : string) :
  validate_policy_structure (VInt 42) filename
  = inl (TypeError (NotIterable (VInt 42)))
  /\ validate_policy_content (VInt 42) filename
     = inr [msg_not_object filename]
  /\ lint_policy_file filename (decoded (VInt 42))
     = [msg_unexpected filename
          (exn_str (TypeError (NotIterable (VInt 42))))].
Proof.
  repeat split; reflexivity.
Qed.

(** C2 (as amended): a file that decodes to null yields the single
    "Empty or invalid YAML file" entry and neither validator runs (the
    structural one would have raised on null).  A file that decodes to
    an empty mapping or to an empty string is not short-circuited: both
    validators run and the result is the three missing-key errors
    followed by "Policy file is empty". *)
Theorem lint_policy_file_null_or_empty (filepath : string) :
  lint_policy_file filepath (decoded VNone) = [msg_empty_yaml filepath]
  /\ validate_policy_structure VNone filepath
     = inl (TypeError (NotIterable VNone))
  /\ lint_policy_file filepath (decoded (VDict []))
     = map (msg_missing_key filepath) required_keys ++ [msg_empty filepath]
  /\ lint_policy_file filepath (decoded (VStr EmptyString))
     = map (msg_missing_key filepath) required_keys ++ [msg_empty filepath].
Proof.
  repeat split; reflexivity.
Qed.

(** C3: whenever [validate_policy_structure] returns an error sequence,
    its "Missing required key" entries are, in this order, the entry for
    [name], the entry for [version] and the entry for [rules], each one
    present exactly when that key is absent from the document: one entry
    per missing key, in the fixed order name, version, rules. *)
Theorem missing_keys_reported_in_order
  (policy : value) (filename : string) (errors : list string) :
  validate_policy_structure policy filename = inr errors ->
  filter (is_missing_key_entry filename) errors
  = map (msg_missing_key filename)
        (filter (key_absent policy) required_keys).
Proof.
  intros H. apply validate_policy_structure_returned_any in H
    as [[entries [-> [_ ->]]] | [Hdict [Hfault ->]]].
  - apply filter_missing_key_entries.
  - rewrite filter_missing_key_all. f_equal.
    destruct policy; try discriminate Hfault; try discriminate Hdict;
      unfold non_mapping_fault, mentions_required_key in Hfault;
      unfold key_absent; simpl in Hfault |- *.
    + destruct (Py.str_contains "name" s), (Py.str_contains "version" s),
        (Py.str_contains "rules" s); try discriminate Hfault; reflexivity.
    + destruct (existsb (Py.is_str "name") items),
        (existsb (Py.is_str "version") items),
        (existsb (Py.is_str "rules") items);
        try discriminate Hfault; reflexivity.
    + destruct (existsb (Py.is_str "name") items),
        (existsb (Py.is_str "version") items),
        (existsb (Py.is_str "rules") items);
        try discriminate Hfault; reflexivity.
    + destruct (existsb (Py.is_str "name") items),
        (existsb (Py.is_str "version") items),
        (existsb (Py.is_str "rules") items);
        try discriminate Hfault; reflexivity.
Qed.


(** C5: an error sequence returned by [validate_policy_structure] never
    holds, for one rule index [i], both "Rule i missing 'severity' field"
    and "Rule i invalid severity '...'" (whatever value is shown). *)
Theorem severity_checks_exclusive
  (policy : value) (filename : string) (errors : list string) (i : nat) :
  validate_policy_structure policy filename = inr errors ->
  ~ (In (msg_rule_missing filename i "severity") errors
     /\ exists shown, In (msg_rule_severity filename i shown) errors).
Proof.
  intros Hrun [Hmissing [shown Hinvalid]].
  apply validate_policy_structure_returned_any in Hrun
    as [[entries [-> [_ ->]]] | [_ [_ ->]]].
  - apply structure_errors_In in Hmissing
      as [[key [_ H]] | [H | [H | [H | Hmissing]]]]; try msg_absurd H.
    apply structure_errors_In in Hinvalid
      as [[key [_ H]] | [H | [H | [H | Hinvalid]]]]; try msg_absurd H.
    destruct Hmissing as [items [j [rule [Hrules [Hj Hmissing]]]]].
    destruct Hinvalid as [items' [j' [rule' [Hrules' [Hj' Hinvalid]]]]].
    rewrite Hrules in Hrules'. injection Hrules' as <-.
    apply rule_errors_missing_severity in Hmissing
      as [<- [fields [-> Hnone]]].
    apply rule_errors_invalid_severity in Hinvalid
      as [<- [fields' [severity [-> Hsome]]]].
    rewrite Hj in Hj'. injection Hj' as <-.
    rewrite Hnone in Hsome. discriminate.
  - simpl in Hmissing.
    destruct Hmissing as [H | [H | [H | []]]]; symmetry in H; msg_absurd H.
Qed.



(** C8: on the minimal valid policy both validators return the empty
    error sequence, so linting a file that decodes to it reports zero
    errors. *)
Theorem minimal_policy_has_no_errors (filename : string) :
  validate_policy_structure minimal_policy filename = inr []
  /\ validate_policy_content minimal_policy filename = inr []
  /\ lint_policy_file filename (decoded minimal_policy) = [].
Proof.
  repeat split; reflexivity.
Qed.


End Properties.

(** * Further properties *)

(** ** Faults, and what every entry starts with *)

Ltac names_file_entry :=
  unfold names_file, fault_entry, msg_missing_key, msg_name_type,
    msg_version_type, msg_rules_type, msg_empty, msg_not_object,
    msg_policy_type, msg_empty_yaml, msg_yaml_error, msg_not_found,
    msg_permission, msg_unexpected;
  rewrite prefix_append; reflexivity.

Section Faults.

Context {rt : Runtime}.

(** The three stages of [lint_policy_file]: a fault while opening or
    decoding ends in one [except] clause; otherwise the decoded document
    is examined. *)
Lemma lint_policy_file_stages (filepath : string) (io : file_io) :
  lint_policy_file filepath io
  = match fault io, safe_load io with
    | Some (in_parser, e), _ => [fault_entry filepath in_parser e]
    | None, inr policy => lint_policy_file filepath (decoded policy)
    | None, inl _ => []
    end.
Proof.
  destruct io as [[e | []] [e' | policy]]; unfold fault; simpl.
  - destruct e; reflexivity.
  - destruct e; reflexivity.
  - destruct e'; reflexivity.
  - reflexivity.
Qed.

Lemma fault_none (io : file_io) :
  fault io = None -> exists policy, io = decoded policy.
Proof.
  destruct io as [[e | []] [e' | policy]]; unfold fault; simpl;
    try discriminate.
  intros _. now exists policy.
Qed.

Lemma structure_errors_name_file filename entries e :
  In e (structure_errors filename entries) -> names_file filename e = true.
Proof.
  intros H. apply structure_errors_In in H
    as [[key [_ ->]] | [-> | [-> | [-> | [items [i [rule [_ [_ H]]]]]]]]];
    try names_file_entry.
  apply rule_errors_shape in H as [rest ->].
  unfold names_file. rewrite prefix_append. reflexivity.
Qed.

Lemma content_errors_name_file filename policy e :
  In e (content_errors filename policy) -> names_file filename e = true.
Proof.
  unfold content_errors.
  destruct (negb (Py.truthy policy)).
  { intros [<- | []]. names_file_entry. }
  destruct policy; try (intros [<- | []]; names_file_entry).
  destruct (Py.dict_lookup "type" entries) as [type |]; [| contradiction].
  destruct (Py.in_strs type valid_types); [contradiction |].
  intros [<- | []]. names_file_entry.
Qed.

Lemma validate_policy_structure_name_file policy filename errors e :
  validate_policy_structure policy filename = inr errors ->
  In e errors -> names_file filename e = true.
Proof.
  intros Hrun. apply validate_policy_structure_returned_any in Hrun
    as [[entries [-> [_ ->]]] | [_ [_ ->]]].
  - apply structure_errors_name_file.
  - intros [<- | [<- | [<- | []]]]; names_file_entry.
Qed.

Lemma fault_entry_names_file filepath in_parser e :
  names_file filepath (fault_entry filepath in_parser e) = true.
Proof.
  unfold fault_entry.
  destruct (in_parser && is_yaml_error e); [names_file_entry |].
  destruct (is_file_not_found e); [names_file_entry |].
  destruct (is_permission_error e); names_file_entry.
Qed.

(** X1: when the file cannot be opened or decoded, the result is exactly
    one entry, chosen by the class of the exception: "File not found",
    "Permission denied", "YAML parsing error" for the parser's own
    exceptions raised while decoding, and "Unexpected error" for anything
    else.  No validator runs. *)
Theorem lint_policy_file_fault
  (filepath : string) (io : file_io) (in_parser : bool) (e : exn) :
  fault io = Some (in_parser, e) ->
  lint_policy_file filepath io = [fault_entry filepath in_parser e]
  /\ (is_file_not_found e = true ->
      lint_policy_file filepath io = [msg_not_found filepath])
  /\ (is_permission_error e = true ->
      lint_policy_file filepath io = [msg_permission filepath])
  /\ (is_yaml_error e = true ->
      lint_policy_file filepath io
      = [if in_parser then msg_yaml_error filepath (exn_str e)
         else msg_unexpected filepath (exn_str e)]).
Proof.
  intros Hfault.
  assert (H : lint_policy_file filepath io
              = [fault_entry filepath in_parser e]).
  { rewrite lint_policy_file_stages, Hfault. reflexivity. }
  rewrite H. unfold fault_entry.
  repeat split; intros He; destruct e; try discriminate He;
    destruct in_parser; reflexivity.
Qed.

(** X2: every entry returned by [lint_policy_file] starts with the path
    of the file followed by a colon and a blank, whatever the file system
    and the parser did and whatever was decoded. *)
Theorem lint_policy_file_entries_name_file
  (filepath : string) (io : file_io) :
  Forall (fun e => names_file filepath e = true)
         (lint_policy_file filepath io).
Proof.
  apply Forall_forall. intros e.
  rewrite lint_policy_file_stages.
  destruct (fault io) as [[in_parser exc] |] eqn:Hfault.
  - intros [<- | []]. apply fault_entry_names_file.
  - apply fault_none in Hfault as [policy ->]. simpl.
    rewrite lint_policy_file_decoded.
    destruct (Py.is_none policy).
    { intros [<- | []]. names_file_entry. }
    destruct (validate_policy_structure policy filepath)
      as [exc | structural] eqn:Hrun.
    { intros [<- | []]. apply fault_entry_names_file. }
    rewrite in_app_iff. intros [He | He].
    + eapply validate_policy_structure_name_file; eassumption.
    + rewrite validate_policy_content_eq in He.
      destruct (content_fault policy) as [exc |].
      * destruct He as [<- | []]. apply fault_entry_names_file.
      * eapply content_errors_name_file; eassumption.
Qed.

End Faults.

(** ** Clean results and conforming documents *)

Lemma flat_map_nil_iff {A B : Type} (f : A -> list B) (l : list A) :
  flat_map f l = [] <-> forall x, In x l -> f x = [].
Proof.
  induction l as [| x rest IH]; simpl.
  - split; [intros _ y [] | reflexivity].
  - split.
    + intros H. apply app_eq_nil in H as [Hx Hrest].
      intros y [<- | Hy]; [exact Hx | now apply IH].
    + intros H. rewrite (H x) by now left. simpl.
      apply IH. intros y Hy. apply H. now right.
Qed.

Section Clean.

Context {rt : Runtime}.

Lemma rule_errors_nil filename i rule :
  rule_errors filename (i, rule) = [] <-> rule_conforms rule = true.
Proof.
  destruct rule; simpl; try (split; discriminate).
  destruct (Py.dict_has "id" entries),
    (Py.dict_has "description" entries),
    (Py.dict_lookup "severity" entries) as [severity |];
    try destruct (Py.in_strs severity severities); simpl;
    split; (reflexivity || discriminate).
Qed.

Lemma rules_errors_nil filename items :
  flat_map (rule_errors filename) (Py.enumerate items) = []
  <-> forallb rule_conforms items = true.
Proof.
  rewrite flat_map_nil_iff, forallb_forall. split.
  - intros H rule Hrule. apply In_nth_error in Hrule as [i Hi].
    apply (rule_errors_nil filename i). apply H. now apply enumerate_In.
  - intros H [i rule] Hin. apply rule_errors_nil. apply H.
    apply enumerate_In in Hin. eapply nth_error_In, Hin.
Qed.

Lemma structure_errors_nil filename entries :
  structure_errors filename entries = []
  <-> exists name version items,
      Py.dict_lookup "name" entries = Some (VStr name)
      /\ Py.dict_lookup "version" entries = Some (VStr version)
      /\ Py.dict_lookup "rules" entries = Some (VList items)
      /\ forallb rule_conforms items = true.
Proof.
  unfold structure_errors. split.
  - intros H.
    apply app_eq_nil in H as [Hmissing H].
    apply app_eq_nil in H as [Hname H].
    apply app_eq_nil in H as [Hversion Hrules].
    unfold missing_key_errors in Hmissing. simpl in Hmissing.
    rewrite !dict_has_lookup in Hmissing.
    unfold str_field_errors in Hname, Hversion.
    unfold rules_errors in Hrules.
    destruct (Py.dict_lookup "name" entries) as [name |];
      [| discriminate Hmissing].
    destruct (Py.dict_lookup "version" entries) as [version |];
      [| discriminate Hmissing].
    destruct (Py.dict_lookup "rules" entries) as [rules |];
      [| discriminate Hmissing].
    destruct name; try discriminate Hname.
    destruct version; try discriminate Hversion.
    destruct rules; try discriminate Hrules.
    apply rules_errors_nil in Hrules. eauto 8.
  - intros [name [version [items [Hname [Hversion [Hrules Hitems]]]]]].
    unfold missing_key_errors, str_field_errors, rules_errors. simpl.
    rewrite !dict_has_lookup, Hname, Hversion, Hrules. simpl.
    now apply rules_errors_nil.
Qed.

Lemma first_fault_all_none {A : Type} (fault : A -> option exn)
  (l : list A) :
  (forall x, In x l -> fault x = None) -> first_fault fault l = None.
Proof.
  induction l as [| x rest IH]; intros H; [reflexivity |].
  simpl. rewrite (H x) by now left. apply IH. intros y Hy. apply H.
  now right.
Qed.

Lemma rule_conforms_no_fault i rule :
  rule_conforms rule = true -> rule_fault (i, rule) = None.
Proof.
  unfold rule_fault, format_fault. destruct rule; try reflexivity. simpl.
  destruct (Py.dict_lookup "severity" entries) as [severity |];
    [| reflexivity].
  rewrite !andb_true_iff. now intros [_ ->].
Qed.

Lemma rules_conform_no_fault entries items :
  Py.dict_lookup "rules" entries = Some (VList items) ->
  forallb rule_conforms items = true ->
  structure_fault entries = None.
Proof.
  intros Hrules Hitems. unfold structure_fault. rewrite Hrules.
  apply first_fault_all_none. intros [i rule] Hin.
  apply rule_conforms_no_fault. rewrite forallb_forall in Hitems.
  apply Hitems. apply enumerate_In in Hin. eapply nth_error_In, Hin.
Qed.

Lemma lint_clean_then_conforms (filepath : string) (io : file_io) :
  lint_policy_file filepath io = [] ->
  exists policy, io = decoded policy /\ conforms policy = true.
Proof.
  rewrite lint_policy_file_stages.
  destruct (fault io) as [[in_parser e] |] eqn:Hfault; [discriminate |].
  apply fault_none in Hfault as [policy ->]. simpl.
  rewrite lint_policy_file_decoded.
  destruct (Py.is_none policy); [discriminate |].
  destruct (validate_policy_structure policy filepath)
    as [e | structural] eqn:Hrun; [discriminate |].
  intros H. exists policy. split; [reflexivity |].
  apply app_eq_nil in H as [-> Hc].
  apply validate_policy_structure_returned_any in Hrun
    as [[entries [-> [_ Hs]]] | [_ [_ Hs]]]; [| discriminate Hs].
  symmetry in Hs. apply structure_errors_nil in Hs
    as [name [version [items [Hname [Hversion [Hrules Hitems]]]]]].
  simpl. rewrite Hname, Hversion, Hrules, Hitems. simpl.
  rewrite validate_policy_content_eq in Hc.
  destruct (content_fault (VDict entries)); [discriminate Hc |].
  unfold content_errors in Hc.
  destruct (negb (Py.truthy (VDict entries))); [discriminate Hc |].
  destruct (Py.dict_lookup "type" entries) as [type |]; [| reflexivity].
  destruct (Py.in_strs type valid_types); [reflexivity | discriminate Hc].
Qed.

Lemma conforms_then_lint_clean (filepath : string) (policy : value) :
  conforms policy = true ->
  lint_policy_file filepath (decoded policy) = [].
Proof.
  intros Hconforms. rewrite lint_policy_file_decoded.
  destruct policy; try discriminate Hconforms. simpl in Hconforms |- *.
  rewrite validate_policy_structure_dict.
  destruct (Py.dict_lookup "name" entries) as [name |] eqn:Hname;
    [| discriminate Hconforms].
  destruct name; try discriminate Hconforms.
  destruct (Py.dict_lookup "version" entries) as [version |] eqn:Hversion;
    [| discriminate Hconforms].
  destruct version; try discriminate Hconforms.
  destruct (Py.dict_lookup "rules" entries) as [rules |] eqn:Hrules;
    [| discriminate Hconforms].
  destruct rules; try discriminate Hconforms.
  apply andb_true_iff in Hconforms as [Hitems Htype].
  assert (Hs : structure_errors filepath entries = []).
  { apply structure_errors_nil. eauto 8. }
  rewrite (rules_conform_no_fault entries items Hrules Hitems), Hs.
  rewrite validate_policy_content_eq.
  destruct entries as [| entry rest]; [discriminate Hname |].
  unfold content_fault, content_errors, format_fault.
  change (Py.truthy (VDict (entry :: rest))) with true. cbv beta iota.
  simpl negb. cbv iota.
  destruct (Py.dict_lookup "type" (entry :: rest)) as [type |];
    [| reflexivity].
  now rewrite Htype.
Qed.

(** X3: [lint_policy_file] returns no entry exactly when the file opens
    and decodes to a conforming document: a mapping whose [name] and
    [version] are strings, whose [rules] is a list of mappings that each
    have [id], [description] and a [severity] among low, medium, high,
    critical, and whose [type], if present, is among security,
    compliance, performance, observability. *)
Theorem lint_policy_file_clean_iff (filepath : string) (io : file_io) :
  lint_policy_file filepath io = []
  <-> exists policy, io = decoded policy /\ conforms policy = true.
Proof.
  split.
  - apply lint_clean_then_conforms.
  - intros [policy [-> Hconforms]].
    now apply conforms_then_lint_clean.
Qed.

End Clean.

(** ** Order and meaning of the structural entries *)

Lemma length_append (a b : string) :
  String.length (a ++ b) = String.length a + String.length b.
Proof. induction a as [| c a IH]; simpl; [reflexivity | now rewrite IH]. Qed.

Lemma append_inv_tail (a b c : string) :
  (a ++ c = b ++ c)%string -> a = b.
Proof.
  revert b. induction a as [| x a IH]; intros [| y b] H; simpl in H.
  - reflexivity.
  - apply (f_equal String.length) in H. simpl in H.
    rewrite length_append in H. lia.
  - apply (f_equal String.length) in H. simpl in H.
    rewrite length_append in H. lia.
  - injection H as -> H. f_equal. now apply IH.
Qed.

(** [H] equates two per-rule messages: the indices agree, and [H]
    becomes the equation between what follows them. *)
Ltac rule_msg_inv H Hidx :=
  unfold msg_rule_not_dict, msg_rule_missing, msg_rule_severity in H;
  apply append_inv_head in H; simpl in H; injection H as H;
  apply indexed_text_inv in H as [Hidx H].

Ltac type_entry :=
  unfold is_type_entry, is_missing_key_entry, is_rule_entry, msg_name_type,
    msg_version_type, msg_rules_type;
  rewrite !prefix_append; reflexivity.

Section Meaning.

Context {rt : Runtime}.

Lemma str_field_errors_iff entries key msg e :
  In e (str_field_errors entries key msg)
  <-> e = msg /\ exists v,
        Py.dict_lookup key entries = Some v /\ Py.isinstance_str v = false.
Proof.
  unfold str_field_errors.
  destruct (Py.dict_lookup key entries) as [v |].
  - destruct (Py.isinstance_str v) eqn:Hv; simpl.
    + split; [contradiction |]. intros [_ [v' [[= <-] H]]]. congruence.
    + split; [intros [<- | []]; eauto |]. intros [-> _]. now left.
  - simpl. split; [contradiction |]. intros [_ [v [H _]]]. discriminate H.
Qed.

Lemma rules_errors_type_iff filename entries :
  In (msg_rules_type filename) (rules_errors filename entries)
  <-> exists v,
      Py.dict_lookup "rules" entries = Some v /\ is_sequence v = false.
Proof.
  unfold rules_errors.
  destruct (Py.dict_lookup "rules" entries) as [rules |].
  - destruct rules; simpl;
      try (split; [intros _; eexists; split; reflexivity | now left]).
    split.
    + intros H. apply in_flat_map in H as [[i rule] [_ H]].
      apply rule_errors_shape in H as [rest H]. msg_absurd H.
    + intros [v [[= <-] H]]. discriminate H.
  - simpl. split; [contradiction |]. intros [v [H _]]. discriminate H.
Qed.

(** Membership of a per-rule entry in the result for a mapping whose
    [rules] is the list [items]. *)
Lemma rule_entry_In filename entries items e :
  Py.dict_lookup "rules" entries = Some (VList items) ->
  is_rule_entry filename e = true ->
  In e (structure_errors filename entries)
  <-> exists i rule,
      nth_error items i = Some rule /\ In e (rule_errors filename (i, rule)).
Proof.
  intros Hrules He.
  assert (Hfilter :
            In e (filter (is_rule_entry filename)
                         (structure_errors filename entries))
            <-> In e (structure_errors filename entries)).
  { rewrite filter_In. tauto. }
  rewrite <- Hfilter, filter_rule_entries, Hrules, in_flat_map.
  split.
  - intros [[i rule] [Hin H]]. exists i, rule.
    now rewrite <- enumerate_In.
  - intros [i [rule [Hi H]]]. exists (i, rule). now rewrite enumerate_In.
Qed.

Lemma rule_errors_not_dict filename i j rule :
  In (msg_rule_not_dict filename i) (rule_errors filename (j, rule))
  <-> i = j /\ Py.isinstance_dict rule = false.
Proof.
  split.
  - unfold rule_errors.
    destruct rule; simpl;
      try (intros [H | []]; rule_msg_inv H Hidx; now split).
    rewrite !in_app_iff. intros [H | [H | H]].
    + destruct (Py.dict_has "id" entries); simpl in H; [contradiction |].
      destruct H as [H | []]. msg_absurd H.
    + destruct (Py.dict_has "description" entries); simpl in H;
        [contradiction |].
      destruct H as [H | []]. msg_absurd H.
    + destruct (Py.dict_lookup "severity" entries) as [severity |].
      * destruct (Py.in_strs severity severities); simpl in H;
          [contradiction |].
        destruct H as [H | []]. msg_absurd H.
      * destruct H as [H | []]. msg_absurd H.
  - intros [<- Hrule]. destruct rule; try discriminate Hrule; now left.
Qed.

Lemma rule_errors_missing filename i j rule field :
  In field ["id"; "description"; "severity"] ->
  In (msg_rule_missing filename i field) (rule_errors filename (j, rule))
  <-> i = j /\ exists fields,
        rule = VDict fields /\ Py.dict_has field fields = false.
Proof.
  intros Hfield. split.
  - unfold rule_errors.
    destruct rule; simpl rule_errors;
      try (intros [H | []]; msg_absurd H).
    rewrite !in_app_iff. intros [H | [H | H]].
    + destruct (Py.dict_has "id" entries) eqn:Hid; simpl in H;
        [contradiction |].
      destruct H as [H | []].
      destruct Hfield as [<- | [<- | [<- | []]]]; rule_msg_inv H Hidx;
        try discriminate H.
      split; [now symmetry | eauto].
    + destruct (Py.dict_has "description" entries) eqn:Hd; simpl in H;
        [contradiction |].
      destruct H as [H | []].
      destruct Hfield as [<- | [<- | [<- | []]]]; rule_msg_inv H Hidx;
        try discriminate H.
      split; [now symmetry | eauto].
    + destruct (Py.dict_lookup "severity" entries) as [severity |] eqn:Hs.
      * destruct (Py.in_strs severity severities); simpl in H;
          [contradiction |].
        destruct H as [H | []].
        destruct Hfield as [<- | [<- | [<- | []]]]; msg_absurd H.
      * destruct H as [H | []].
        destruct Hfield as [<- | [<- | [<- | []]]]; rule_msg_inv H Hidx;
          try discriminate H.
        split; [now symmetry |]. exists entries. split; [reflexivity |].
        now rewrite dict_has_lookup, Hs.
  - intros [<- [fields [-> Hhas]]]. simpl. rewrite !in_app_iff.
    destruct Hfield as [<- | [<- | [<- | []]]].
    + left. rewrite Hhas. now left.
    + right; left. rewrite Hhas. now left.
    + right; right. rewrite dict_has_lookup in Hhas.
      destruct (Py.dict_lookup "severity" fields); [discriminate | now left].
Qed.

Lemma rule_errors_severity filename i j rule shown :
  In (msg_rule_severity filename i shown) (rule_errors filename (j, rule))
  <-> i = j /\ exists fields severity,
        rule = VDict fields
        /\ Py.dict_lookup "severity" fields = Some severity
        /\ Py.in_strs severity severities = false
        /\ shown = text_of severity.
Proof.
  split.
  - unfold rule_errors.
    destruct rule; simpl rule_errors;
      try (intros [H | []]; msg_absurd H).
    rewrite !in_app_iff. intros [H | [H | H]].
    + destruct (Py.dict_has "id" entries); simpl in H; [contradiction |].
      destruct H as [H | []]. msg_absurd H.
    + destruct (Py.dict_has "description" entries); simpl in H;
        [contradiction |].
      destruct H as [H | []]. msg_absurd H.
    + destruct (Py.dict_lookup "severity" entries) as [severity |] eqn:Hs.
      * destruct (Py.in_strs severity severities) eqn:Hbad; simpl in H;
          [contradiction |].
        destruct H as [H | []]. rule_msg_inv H Hidx.
        injection H as H. apply append_inv_tail in H.
        split; [now symmetry |]. exists entries, severity. auto.
      * destruct H as [H | []]. msg_absurd H.
  - intros [<- [fields [severity [-> [Hs [Hbad ->]]]]]].
    simpl. rewrite !in_app_iff, Hs, Hbad. right; right. now left.
Qed.

End Meaning.

Section StructuralMeaning.

Context {rt : Runtime}.

(** X4: a returned error sequence follows the order of the checks: first
    the "Missing required key" entries, then the entries about the types
    of [name], [version] and [rules], and last the per-rule entries. *)
Theorem structural_errors_in_check_order
  (policy : value) (filename : string) (errors : list string) :
  validate_policy_structure policy filename = inr errors ->
  exists missing types rules,
    errors = missing ++ types ++ rules
    /\ Forall (fun e => is_missing_key_entry filename e = true) missing
    /\ Forall (fun e => is_type_entry filename e = true) types
    /\ Forall (fun e => is_rule_entry filename e = true) rules.
Proof.
  assert (Hall : Forall (fun e => is_missing_key_entry filename e = true)
                        (map (msg_missing_key filename) required_keys)).
  { apply Forall_forall. intros e He.
    apply in_map_iff in He as [key [<- _]]. recognise. }
  intros Hrun. apply validate_policy_structure_returned_any in Hrun
    as [[entries [-> [_ ->]]] | [_ [_ ->]]].
  - exists (missing_key_errors filename (fun key => Py.dict_has key entries)),
      (str_field_errors entries "name" (msg_name_type filename)
       ++ str_field_errors entries "version" (msg_version_type filename)
       ++ match Py.dict_lookup "rules" entries with
          | Some (VList _) | None => []
          | Some _ => [msg_rules_type filename]
          end),
      (match Py.dict_lookup "rules" entries with
       | Some (VList items) =>
           flat_map (rule_errors filename) (Py.enumerate items)
       | _ => []
       end).
    split; [| split; [| split]].
    + unfold structure_errors, rules_errors. rewrite <- !app_assoc.
      do 3 f_equal.
      destruct (Py.dict_lookup "rules" entries) as [rules |];
        [destruct rules |]; reflexivity.
    + apply Forall_forall. intros e He.
      apply missing_key_errors_In in He as [key [_ ->]]. recognise.
    + apply Forall_forall. intros e. rewrite !in_app_iff.
      intros [He | [He | He]].
      * apply str_field_errors_In in He as ->. type_entry.
      * apply str_field_errors_In in He as ->. type_entry.
      * destruct (Py.dict_lookup "rules" entries) as [rules |];
          [destruct rules |]; simpl in He;
          try contradiction; destruct He as [<- | []]; type_entry.
    + destruct (Py.dict_lookup "rules" entries) as [rules |];
        [destruct rules |]; try apply Forall_nil.
      apply Forall_forall. intros e He.
      apply in_flat_map in He as [[i rule] [_ He]].
      apply rule_errors_shape in He as [rest ->]. recognise.
  - exists (map (msg_missing_key filename) required_keys), [], [].
    repeat split; auto.
Qed.

(** X5: in an error sequence that [validate_policy_structure] returns
    for a mapping document, each of the three type entries is present
    exactly when its key is present with a value of the wrong type:
    "'name' must be a string" and "'version' must be a string" when the
    value is not a string, "'rules' must be a list" when it is not a
    list.  A missing key gives no type entry. *)
Theorem type_entries_reported_iff
  (entries : list (value * value)) (filename : string)
  (errors : list string) :
  validate_policy_structure (VDict entries) filename = inr errors ->
  (In (msg_name_type filename) errors
   <-> exists v, Py.dict_lookup "name" entries = Some v
                 /\ Py.isinstance_str v = false)
  /\ (In (msg_version_type filename) errors
      <-> exists v, Py.dict_lookup "version" entries = Some v
                    /\ Py.isinstance_str v = false)
  /\ (In (msg_rules_type filename) errors
      <-> exists v, Py.dict_lookup "rules" entries = Some v
                    /\ is_sequence v = false).
Proof.
  intros Hrun. apply validate_policy_structure_returned in Hrun as [_ ->].
  unfold structure_errors. rewrite !in_app_iff.
  split; [| split].
  - split.
    + intros [H | [H | [H | H]]].
      * apply missing_key_errors_In in H as [key [_ H]]. msg_absurd H.
      * now apply str_field_errors_iff in H as [_ H].
      * apply str_field_errors_In in H. msg_absurd H.
      * apply rules_errors_In in H as [H | [items [i [rule [_ [_ H]]]]]];
          [msg_absurd H |].
        apply rule_errors_shape in H as [rest H]. msg_absurd H.
    + intros H. right; left. now apply str_field_errors_iff.
  - split.
    + intros [H | [H | [H | H]]].
      * apply missing_key_errors_In in H as [key [_ H]]. msg_absurd H.
      * apply str_field_errors_In in H. msg_absurd H.
      * now apply str_field_errors_iff in H as [_ H].
      * apply rules_errors_In in H as [H | [items [i [rule [_ [_ H]]]]]];
          [msg_absurd H |].
        apply rule_errors_shape in H as [rest H]. msg_absurd H.
    + intros H. right; right; left. now apply str_field_errors_iff.
  - split.
    + intros [H | [H | [H | H]]].
      * apply missing_key_errors_In in H as [key [_ H]]. msg_absurd H.
      * apply str_field_errors_In in H. msg_absurd H.
      * apply str_field_errors_In in H. msg_absurd H.
      * exact (proj1 (rules_errors_type_iff filename entries) H).
    + intros H. right; right; right.
      exact (proj2 (rules_errors_type_iff filename entries) H).
Qed.

(** X6: in an error sequence that [validate_policy_structure] returns
    for a mapping document whose [rules] is a list, a per-rule entry with
    index [i] is about the element at position [i] of the list, counted
    from 0, and is present exactly when that element has the defect:
    "must be a dictionary" when it is not a mapping; "missing '<field>'
    field" when it is a mapping without that field; "invalid severity
    '<shown>'" when it is a mapping whose [severity] is not an allowed
    value, [shown] being that value as [str] formats it. *)
Theorem rule_entries_reported_iff
  (entries : list (value * value)) (items : list value)
  (filename : string) (errors : list string) :
  validate_policy_structure (VDict entries) filename = inr errors ->
  Py.dict_lookup "rules" entries = Some (VList items) ->
  forall i,
    (In (msg_rule_not_dict filename i) errors
     <-> exists rule,
         nth_error items i = Some rule
         /\ Py.isinstance_dict rule = false)
    /\ (forall field,
           In field ["id"; "description"; "severity"] ->
           In (msg_rule_missing filename i field) errors
           <-> exists fields,
               nth_error items i = Some (VDict fields)
               /\ Py.dict_has field fields = false)
    /\ (forall shown,
           In (msg_rule_severity filename i shown) errors
           <-> exists fields severity,
               nth_error items i = Some (VDict fields)
               /\ Py.dict_lookup "severity" fields = Some severity
               /\ Py.in_strs severity severities = false
               /\ Py.str severity = inr shown).
Proof.
  intros Hrun Hrules.
  apply validate_policy_structure_returned in Hrun as [Hfault ->].
  unfold structure_fault in Hfault. rewrite Hrules in Hfault.
  pose proof (first_fault_none _ _ Hfault) as Hnone.
  intros i.
  assert (Hshown : forall fields severity,
             nth_error items i = Some (VDict fields) ->
             Py.dict_lookup "severity" fields = Some severity ->
             Py.in_strs severity severities = false ->
             Py.str severity = inr (text_of severity)).
  { intros fields severity Hi Hs Hbad.
    apply format_fault_none with severities; [| exact Hbad].
    apply enumerate_In in Hi. apply Hnone in Hi.
    unfold rule_fault in Hi. simpl in Hi. now rewrite Hs in Hi. }
  split; [| split].
  - rewrite (rule_entry_In filename entries items _ Hrules) by recognise. split.
    + intros [j [rule [Hj H]]]. apply rule_errors_not_dict in H as [-> H].
      eauto.
    + intros [rule [Hi H]]. exists i, rule. split; [exact Hi |].
      now apply rule_errors_not_dict.
  - intros field Hfield.
    rewrite (rule_entry_In filename entries items _ Hrules) by recognise. split.
    + intros [j [rule [Hj H]]].
      apply rule_errors_missing in H as [-> [fields [-> H]]]; eauto.
    + intros [fields [Hi H]]. exists i, (VDict fields). split; [exact Hi |].
      apply rule_errors_missing; eauto.
  - intros shown.
    rewrite (rule_entry_In filename entries items _ Hrules) by recognise. split.
    + intros [j [rule [Hj H]]].
      apply rule_errors_severity
        in H as [-> [fields [severity [-> [Hs [Hbad ->]]]]]].
      exists fields, severity. repeat split; auto.
      eapply Hshown; eassumption.
    + intros [fields [severity [Hi [Hs [Hbad Hstr]]]]].
      exists i, (VDict fields). split; [exact Hi |].
      apply rule_errors_severity. split; [reflexivity |].
      exists fields, severity. repeat split; auto.
      unfold text_of. now rewrite Hstr.
Qed.

(** X7: when [name] and [version] are strings and [rules] is present but
    is not a list, the structural result is the single entry "'rules'
    must be a list": the value is not iterated and no per-rule entry
    appears. *)
Theorem rules_of_wrong_type_single_error
  (entries : list (value * value)) (name version : string) (rules : value)
  (filename : string) :
  Py.dict_lookup "name" entries = Some (VStr name) ->
  Py.dict_lookup "version" entries = Some (VStr version) ->
  Py.dict_lookup "rules" entries = Some rules ->
  is_sequence rules = false ->
  validate_policy_structure (VDict entries) filename
  = inr [msg_rules_type filename].
Proof.
  intros Hname Hversion Hrules Hseq.
  rewrite validate_policy_structure_dict.
  unfold structure_fault, structure_errors, missing_key_errors,
    str_field_errors, rules_errors.
  simpl. rewrite !dict_has_lookup, Hname, Hversion, Hrules. simpl.
  destruct rules; try reflexivity. discriminate Hseq.
Qed.

End StructuralMeaning.

(** ** A run of the command line *)

Lemma flat_map_singleton {A B : Type} (f : A -> B) (l : list A) :
  flat_map (fun x => [f x]) l = map f l.
Proof. induction l as [| x rest IH]; simpl; [| rewrite IH]; reflexivity. Qed.

Lemma for_fold_app {A S : Type} (l1 l2 : list A) (s : S)
  (body : A -> S -> M S) (out : list string) :
  for_fold (l1 ++ l2) s body out
  = bind (for_fold l1 s body) (fun s' => for_fold l2 s' body) out.
Proof.
  revert s out. induction l1 as [| x rest IH]; intros s out; simpl.
  - reflexivity.
  - unfold bind. destruct (body x s out) as [[e | s'] out'].
    + reflexivity.
    + rewrite IH. reflexivity.
Qed.

Lemma printed_until_app (c : console) (t1 t2 : list string) :
  printed_until c (t1 ++ t2)
  = match printed_until c t1 with
    | (done, Some e) => (done, Some e)
    | (done, None) =>
        let (done', refused) := printed_until c t2 in (done ++ done', refused)
    end.
Proof.
  induction t1 as [| text rest IH]; simpl.
  - now destruct (printed_until c t2).
  - destruct (write_fault c text); [reflexivity |].
    rewrite IH. destruct (printed_until c rest) as [done [e |]];
      [reflexivity |].
    now destruct (printed_until c t2).
Qed.

Lemma printed_until_accepts (c : console) (texts : list string) :
  accepts c texts -> printed_until c texts = (texts, None).
Proof.
  induction texts as [| text rest IH]; intros H; [reflexivity |].
  simpl. rewrite (H text) by now left.
  rewrite IH; [reflexivity |]. intros t Ht. apply H. now right.
Qed.


Lemma outcome_accepts {A : Type} (c : console) (texts : list string)
  (r : result A) :
  accepts c texts -> outcome c texts r = (r, texts).
Proof.
  intros H. unfold outcome. now rewrite printed_until_accepts.
Qed.

Lemma outcome_raise {A : Type} (c : console) (texts : list string) (e : exn) :
  exists e', fst (outcome c texts (@inl exn A e)) = inl e'.
Proof.
  unfold outcome.
  destruct (printed_until c texts) as [done [e' |]]; simpl; eauto.
Qed.

Section Emits.

Context {A B : Type}.
Variable c : console.

Lemma emits_ret (a : A) : emits c (ret a) [] (inr a).
Proof. intros out. unfold ret. simpl. now rewrite app_nil_r. Qed.

Lemma emits_lift (r : result A) : emits c (lift r) [] r.
Proof. intros out. unfold lift. simpl. now rewrite app_nil_r. Qed.

Lemma emits_bind (m : M A) (k : A -> M B) (a : A) (t1 t2 : list string)
  (r : result B) :
  emits c m t1 (inr a) -> emits c (k a) t2 r ->
  emits c (bind m k) (t1 ++ t2) r.
Proof.
  unfold emits, outcome, bind. intros Hm Hk out.
  rewrite Hm, printed_until_app.
  destruct (printed_until c t1) as [d1 [e |]]; simpl; [reflexivity |].
  rewrite Hk. destruct (printed_until c t2) as [d2 [e |]]; simpl;
    now rewrite app_assoc.
Qed.

Lemma emits_bind_raise (m : M A) (k : A -> M B) (e : exn)
  (texts : list string) :
  emits c m texts (inl e) -> emits c (bind m k) texts (inl e).
Proof.
  unfold emits, outcome, bind. intros Hm out. rewrite Hm.
  destruct (printed_until c texts) as [done [e' |]]; reflexivity.
Qed.

Lemma emits_texts (m : M A) (t t' : list string) (r : result A) :
  t = t' -> emits c m t r -> emits c m t' r.
Proof. now intros ->. Qed.

End Emits.

Section Run.

Context {rt : Runtime}.

Variable c : console.
Variable w : world.
Variable verbose : bool.

Let is_policy (entry : string * file_io) : bool :=
  is_policy_file w (fst entry).

Let lint (entry : string * file_io) : list string :=
  lint_policy_file (fst entry) (snd entry).

Lemma emits_print (text : string) : emits c (print c text) [text] (inr tt).
Proof.
  intros out. unfold print, outcome. simpl.
  destruct (write_fault c text); unfold lift, append; simpl;
    now rewrite ?app_nil_r.
Qed.

Lemma emits_when (flag : bool) (text : string) :
  emits c (when flag (print c text)) (if flag then [text] else []) (inr tt).
Proof.
  destruct flag; [apply emits_print | apply emits_ret].
Qed.

Lemma emits_prints {X : Type} (f : X -> string) (l : list X) :
  emits c (for_each l (fun x => print c (f x))) (map f l) (inr tt).
Proof.
  induction l as [| x rest IH]; [apply emits_ret |].
  cbn [for_each map].
  apply (emits_bind c _ _ tt [f x] (map f rest)); [apply emits_print | exact IH].
Qed.

Lemma linting_lines_cons (entry : string * file_io)
  (rest : list (string * file_io)) :
  linting_lines verbose (entry :: rest)
  = (if verbose then [msg_linting (fst entry)] else [])
    ++ linting_lines verbose rest.
Proof. unfold linting_lines. now destruct verbose. Qed.

Lemma linting_lines_app (l1 l2 : list (string * file_io)) :
  linting_lines verbose (l1 ++ l2)
  = linting_lines verbose l1 ++ linting_lines verbose l2.
Proof. unfold linting_lines. destruct verbose; [apply map_app | reflexivity]. Qed.

(** Lines 127-132 for one path. *)
Lemma lint_one_run (entry : string * file_io) (all_errors : list string)
  (files_processed : nat) :
  emits c (lint_one c verbose entry (all_errors, files_processed))
        (if verbose then [msg_linting (fst entry)] else [])
        (inr (all_errors ++ lint entry, files_processed + 1)).
Proof.
  destruct entry as [filepath io]. unfold lint_one.
  eapply emits_texts; [apply app_nil_r |].
  eapply emits_bind; [apply emits_when | apply emits_ret].
Qed.

(** The inner loop over what one [glob] yields. *)
Lemma lint_matches_run (l : list (string * file_io))
  (all_errors : list string) (files_processed : nat) :
  emits c (for_fold l (all_errors, files_processed) (lint_match c w verbose))
        (linting_lines verbose (filter is_policy l))
        (inr (all_errors ++ flat_map lint (filter is_policy l),
              files_processed + length (filter is_policy l))).
Proof.
  revert all_errors files_processed.
  induction l as [| entry rest IH]; intros all_errors files_processed.
  - cbn [for_fold filter flat_map length]. rewrite app_nil_r, Nat.add_0_r.
    eapply emits_texts; [| apply emits_ret]. now destruct verbose.
  - cbn [for_fold filter]. unfold lint_match at 1.
    change (is_policy_file w (fst entry)) with (is_policy entry).
    destruct (is_policy entry).
    + rewrite linting_lines_cons. cbn [flat_map length].
      rewrite app_assoc.
      replace (files_processed + S (length (filter is_policy rest)))
        with (files_processed + 1 + length (filter is_policy rest)) by lia.
      eapply emits_bind; [apply lint_one_run | apply IH].
    + change (linting_lines verbose (filter is_policy rest))
        with ([] ++ linting_lines verbose (filter is_policy rest)).
      eapply emits_bind; [apply emits_ret | apply IH].
Qed.

(** One pattern whose [glob] does not raise. *)
Lemma for_glob_run (pattern : string) (all_errors : list string)
  (files_processed : nat) :
  failure (glob w pattern) = None ->
  emits c (for_glob (glob w pattern) (all_errors, files_processed)
             (lint_match c w verbose))
        (linting_lines verbose (linted w [pattern]))
        (inr (all_errors ++ collected_errors w [pattern],
              files_processed + length (linted w [pattern]))).
Proof.
  intros Hglob. unfold for_glob, collected_errors, linted.
  cbn [flat_map]. rewrite !app_nil_r, Hglob.
  eapply emits_texts; [apply app_nil_r |].
  eapply emits_bind; [apply lint_matches_run | apply emits_ret].
Qed.

(** One pattern whose [glob] raises after it has yielded its paths. *)
Lemma for_glob_raises (pattern : string) (e : exn) (so_far : totals) :
  failure (glob w pattern) = Some e ->
  emits c (for_glob (glob w pattern) so_far (lint_match c w verbose))
        (linting_lines verbose (linted w [pattern]))
        (inl e).
Proof.
  intros Hglob. destruct so_far as [all_errors files_processed].
  unfold for_glob, linted. cbn [flat_map]. rewrite !app_nil_r, Hglob.
  eapply emits_texts; [apply app_nil_r |].
  eapply emits_bind; [apply lint_matches_run | apply emits_lift].
Qed.

Lemma linted_cons (pattern : string) (rest : list string) :
  linted w (pattern :: rest) = linted w [pattern] ++ linted w rest.
Proof. unfold linted. cbn [flat_map]. now rewrite app_nil_r. Qed.

Lemma linted_app (l1 l2 : list string) :
  linted w (l1 ++ l2) = linted w l1 ++ linted w l2.
Proof. unfold linted. apply flat_map_app. Qed.

(** The outer loop over the patterns, when no [glob] raises. *)
Lemma patterns_run (files : list string)
  (all_errors : list string) (files_processed : nat) :
  globs_succeed w files ->
  emits c (for_fold files (all_errors, files_processed)
             (fun pattern so_far =>
                for_glob (glob w pattern) so_far (lint_match c w verbose)))
        (linting_lines verbose (linted w files))
        (inr (all_errors ++ collected_errors w files,
              files_processed + length (linted w files))).
Proof.
  revert all_errors files_processed.
  induction files as [| pattern rest IH];
    intros all_errors files_processed Hglobs.
  - cbn [for_fold]. unfold collected_errors, linted. cbn [flat_map length].
    rewrite app_nil_r, Nat.add_0_r.
    eapply emits_texts; [| apply emits_ret]. now destruct verbose.
  - cbn [for_fold]. unfold collected_errors.
    rewrite linted_cons, linting_lines_app, flat_map_app, length_app.
    rewrite app_assoc, Nat.add_assoc.
    eapply emits_bind.
    + apply for_glob_run. apply Hglobs. now left.
    + apply IH. intros p Hp. apply Hglobs. now right.
Qed.

Lemma report_run (all_errors : list string) (files_processed : nat) :
  emits c (report c verbose (all_errors, files_processed))
        ((if verbose then [msg_processed files_processed] else [])
         ++ report_lines all_errors files_processed)
        (inr (match all_errors with [] => 0 | _ :: _ => 1 end)).
Proof.
  unfold report. eapply emits_bind; [apply emits_when |].
  unfold report_lines. destruct all_errors as [| error rest].
  - eapply emits_texts; [apply app_nil_r |].
    eapply emits_bind; [apply emits_print | apply emits_ret].
  - change (msg_found (length (error :: rest))
            :: map msg_error_line (error :: rest))
      with ([msg_found (length (error :: rest))]
            ++ map msg_error_line (error :: rest)).
    eapply emits_bind; [apply emits_print |].
    eapply emits_texts; [apply app_nil_r |].
    eapply emits_bind; [apply emits_prints | apply emits_ret].
Qed.

Lemma progress_then_report (done : list (string * file_io))
  (r : list string) :
  linting_lines verbose done
  ++ (if verbose then [msg_processed (length done)] else []) ++ r
  = progress_lines verbose done ++ r.
Proof.
  unfold linting_lines, progress_lines.
  destruct verbose; [now rewrite <- app_assoc | reflexivity].
Qed.

(** A run in which no [glob] raises. *)
Lemma main_run (files : list string) :
  globs_succeed w files ->
  main_body c w files verbose []
  = outcome c
      (progress_lines verbose (linted w files)
       ++ report_lines (collected_errors w files) (length (linted w files)))
      (inr (match collected_errors w files with [] => 0 | _ :: _ => 1 end)).
Proof.
  intros Hglobs.
  assert (H : emits c (main_body c w files verbose)
                (linting_lines verbose (linted w files)
                 ++ (if verbose
                     then [msg_processed (length (linted w files))]
                     else [])
                 ++ report_lines (collected_errors w files)
                                 (length (linted w files)))
                (inr (match collected_errors w files with
                      | [] => 0
                      | _ :: _ => 1
                      end))).
  { unfold main_body. eapply emits_bind.
    - apply (patterns_run files [] 0 Hglobs).
    - apply report_run. }
  rewrite progress_then_report in H. rewrite (H []). simpl app.
  now destruct (outcome c _ _).
Qed.

(** A run in which the [glob] of [pattern] is the first to raise. *)
Lemma main_raises (before after : list string) (pattern : string)
  (e : exn) :
  globs_succeed w before ->
  failure (glob w pattern) = Some e ->
  main_body c w (before ++ pattern :: after) verbose []
  = outcome c (linting_lines verbose (linted w (before ++ [pattern])))
            (inl e).
Proof.
  intros Hglobs Hfail.
  assert (H : emits c (main_body c w (before ++ pattern :: after) verbose)
                (linting_lines verbose (linted w (before ++ [pattern])))
                (inl e)).
  { unfold main_body. apply emits_bind_raise.
    intros out. rewrite for_fold_app. revert out.
    rewrite linted_app, linting_lines_app.
    eapply emits_bind; [apply (patterns_run before [] 0 Hglobs) |].
    cbn [for_fold]. apply emits_bind_raise.
    now apply for_glob_raises. }
  rewrite (H []). simpl app. now destruct (outcome c _ _).
Qed.

End Run.

Section RunProperties.

Context {rt : Runtime}.


(** X9: when [parse_args] returns and no [glob] raises, [main] calls
    [print] on these texts, in this order, until the standard output
    refuses one: in verbose mode "Linting <path>..." for each linted file,
    in the order of the patterns and of what each [glob] yields, and then
    the "Processed <n> policy files" text; and then, in both modes, the
    report: the "All <n> policy files passed validation" text when no
    file has an error, otherwise the "Found <k> errors:" text, [k] being
    the number of entries of all linted files together, followed by one
    call per entry, in order, the entry indented by two blanks.  So the
    report takes [k + 1] calls of [print]; a text may span several lines,
    as the headline, which starts with a line feed, does.  A path yielded
    for two patterns is linted, counted and reported twice.  When every
    text is taken, they are the whole output. *)
Theorem main_output
  (c : console) (w : world) (pattern : string) (more : list string)
  (verbose : bool) :
  globs_succeed w (pattern :: more) ->
  main c w (Args pattern more verbose)
  = outcome c (run_texts w (pattern :: more) verbose)
      (inr (match collected_errors w (pattern :: more) with
            | [] => 0
            | _ :: _ => 1
            end))
  /\ (accepts c (run_texts w (pattern :: more) verbose) ->
      snd (main c w (Args pattern more verbose))
      = progress_lines verbose (linted w (pattern :: more))
        ++ report_lines (collected_errors w (pattern :: more))
                        (length (linted w (pattern :: more))))
  /\ length (report_lines (collected_errors w (pattern :: more))
                          (length (linted w (pattern :: more))))
     = S (length (collected_errors w (pattern :: more))).
Proof.
  intros Hglobs. cbn [main].
  rewrite (main_run c w verbose (pattern :: more) Hglobs).
  fold (run_texts w (pattern :: more) verbose).
  split; [reflexivity | split].
  - intros Haccepts. now rewrite outcome_accepts by exact Haccepts.
  - unfold report_lines.
    destruct (collected_errors w (pattern :: more)); simpl;
      [| rewrite length_map]; reflexivity.
Qed.

(** X10: yielded paths whose lowered suffix is neither [.yaml] nor [.yml]
    are never opened and leave no trace: two environments that agree on
    the linted files give the same exit status and the same output. *)
Theorem main_ignores_other_files
  (c : console) (w w' : world) (pattern : string) (more : list string)
  (verbose : bool) :
  globs_succeed w (pattern :: more) ->
  globs_succeed w' (pattern :: more) ->
  linted w (pattern :: more) = linted w' (pattern :: more) ->
  main c w (Args pattern more verbose) = main c w' (Args pattern more verbose).
Proof.
  intros Hglobs Hglobs' Hsame. cbn [main].
  rewrite (main_run c w verbose (pattern :: more) Hglobs),
    (main_run c w' verbose (pattern :: more) Hglobs').
  unfold collected_errors. now rewrite Hsame.
Qed.

(** X11: an exception raised by [glob] is not caught: [main] ends with it
    at the first pattern whose [glob] raises, and prints no report; the
    entries collected until then are lost, and only the "Linting" texts
    of verbose mode have been printed.  Should the standard output refuse
    one of these texts, the run ends earlier, with the exception of that
    [print]: in no case does it reach [sys.exit]. *)
Theorem main_glob_failure
  (c : console) (w : world) (before after : list string)
  (pattern first : string) (more : list string) (e : exn) (verbose : bool) :
  first :: more = before ++ pattern :: after ->
  globs_succeed w before ->
  failure (glob w pattern) = Some e ->
  (accepts c (linting_lines verbose (linted w (before ++ [pattern]))) ->
   main c w (Args first more verbose)
   = (inl e,
      if verbose
      then map (fun entry => msg_linting (fst entry))
               (linted w (before ++ [pattern]))
      else []))
  /\ (verbose = false -> main c w (Args first more verbose) = (inl e, []))
  /\ main c w (Args first more verbose)
     = outcome c (linting_lines verbose (linted w (before ++ [pattern])))
               (inl e)
  /\ exists e', fst (main c w (Args first more verbose)) = inl e'.
Proof.
  intros Hfiles Hglobs Hfail. cbn [main]. rewrite Hfiles.
  rewrite (main_raises c w verbose before after pattern e Hglobs Hfail).
  split; [| split; [| split]].
  - intros Haccepts. now rewrite outcome_accepts by exact Haccepts.
  - now intros ->.
  - reflexivity.
  - apply outcome_raise.
Qed.

(** X12: when [parse_args] returns, no [glob] raises and the patterns
    match no policy file at all, nothing is linted and the run calls
    [print] on "Processed 0 policy files" in verbose mode and on "All 0
    policy files passed validation"; when the standard output takes
    them, the run succeeds with exit status 0, and otherwise it ends with
    the exception of the refused [print]. *)
Theorem main_without_policy_files
  (c : console) (w : world) (pattern : string) (more : list string)
  (verbose : bool) :
  globs_succeed w (pattern :: more) ->
  linted w (pattern :: more) = [] ->
  main c w (Args pattern more verbose)
  = outcome c ((if verbose then [msg_processed 0] else []) ++ [msg_passed 0])
            (inr 0)
  /\ (accepts c ((if verbose then [msg_processed 0] else [])
                 ++ [msg_passed 0]) ->
      main c w (Args pattern more verbose)
      = (inr 0, (if verbose then [msg_processed 0] else [])
                ++ [msg_passed 0])).
Proof.
  intros Hglobs Hnone. cbn [main].
  rewrite (main_run c w verbose (pattern :: more) Hglobs).
  unfold collected_errors, progress_lines, report_lines.
  rewrite Hnone.
  destruct verbose; cbn [flat_map map length app];
    (split; [reflexivity |]);
    intros Haccepts; now rewrite outcome_accepts by exact Haccepts.
Qed.

End RunProperties.

(** ** Documents that are not mappings, and keys that are not read *)

Section Documents.

Context {rt : Runtime}.

(** X13: for a decoded document that is neither null nor a mapping,
    [lint_policy_file] returns either the single "Unexpected error" entry
    of the [TypeError] raised by the structural validator, or the three
    missing-key entries followed by one content entry.  The validator
    raises on a number, a boolean, a date or a timestamp (not iterable),
    on binary data (the [in] test of a string in [bytes]), and on a
    string, a list, a tuple or a set in which a required key is found
    (the subscription that follows).  On the other strings, lists, tuples
    and sets the content entry is "Policy file is empty" when the
    document is empty and "Policy must be a YAML object" otherwise. *)
Theorem lint_policy_file_non_mapping (policy : value) (filepath : string) :
  Py.isinstance_dict policy = false ->
  Py.is_none policy = false ->
  lint_policy_file filepath (decoded policy)
  = match non_mapping_fault policy with
    | Some why => [msg_unexpected filepath (exn_str (TypeError why))]
    | None =>
        map (msg_missing_key filepath) required_keys
        ++ [if Py.truthy policy then msg_not_object filepath
            else msg_empty filepath]
    end
  /\ (non_mapping_fault policy
      = match policy with
        | VStr _ | VList _ | VTuple _ =>
            if mentions_required_key policy then Some (BadIndex policy)
            else None
        | VSet _ =>
            if mentions_required_key policy
            then Some (NotSubscriptable policy)
            else None
        | VBytes _ => Some (BytesLikeRequired policy)
        | _ => Some (NotIterable policy)
        end).
Proof.
  intros Hdict Hnone. split.
  - rewrite lint_policy_file_decoded, Hnone.
    rewrite (validate_policy_structure_non_mapping policy filepath Hdict).
    destruct (non_mapping_fault policy) as [why |] eqn:Hfault;
      [reflexivity |].
    rewrite validate_policy_content_eq.
    destruct policy; try discriminate Hfault; try discriminate Hdict;
      unfold content_fault, content_errors;
      match goal with
      | |- context [Py.truthy ?v] => destruct (Py.truthy v)
      end; reflexivity.
  - destruct policy; try reflexivity. discriminate Hdict.
Qed.

(** X14: the validators read four keys of a mapping and nothing else:
    two non-empty mapping documents with the same values, or the same
    absence, of [name], [version], [rules] and [type] get the same
    result, whatever other keys they hold and in whatever order. *)
Theorem other_keys_are_ignored
  (entries entries' : list (value * value)) (filepath : string) :
  entries <> [] ->
  entries' <> [] ->
  (forall key, In key ["name"; "version"; "rules"; "type"] ->
               Py.dict_lookup key entries = Py.dict_lookup key entries') ->
  lint_policy_file filepath (decoded (VDict entries))
  = lint_policy_file filepath (decoded (VDict entries')).
Proof.
  intros Hne Hne' Hsame.
  rewrite !lint_policy_file_decoded. simpl Py.is_none. cbv iota.
  rewrite !validate_policy_structure_dict, !validate_policy_content_eq.
  unfold structure_fault, structure_errors, missing_key_errors,
    str_field_errors, rules_errors.
  cbn [flat_map required_keys].
  rewrite !dict_has_lookup.
  rewrite !(Hsame "name"), !(Hsame "version"), !(Hsame "rules")
    by (simpl; tauto).
  assert (Hcontent :
            content_fault (VDict entries) = content_fault (VDict entries')
            /\ content_errors filepath (VDict entries)
               = content_errors filepath (VDict entries')).
  { destruct entries as [| entry rest]; [contradiction |].
    destruct entries' as [| entry' rest']; [contradiction |].
    unfold content_fault, content_errors.
    change (Py.truthy (VDict (entry :: rest))) with true.
    change (Py.truthy (VDict (entry' :: rest'))) with true.
    cbv beta iota. rewrite (Hsame "type") by (simpl; tauto).
    split; reflexivity. }
  destruct Hcontent as [-> ->]. reflexivity.
Qed.

End Documents.

(** * Concrete runs *)

(** The documents below are evaluated with the run time [Sample.runtime]. *)

Import Sample.

(** An empty string document is decoded, is not null, and goes through
    both validators: four entries, none of them "Empty or invalid YAML
    file". *)
Lemma lint_policy_file_empty_string_not_short_circuited :
  lint_policy_file "policy.yaml" (decoded (VStr EmptyString))
  = [ "policy.yaml: Missing required key 'name'";
      "policy.yaml: Missing required key 'version'";
      "policy.yaml: Missing required key 'rules'";
      "policy.yaml: Policy file is empty" ]
  /\ lint_policy_file "policy.yaml" (decoded (VDict []))
     = [ "policy.yaml: Missing required key 'name'";
         "policy.yaml: Missing required key 'version'";
         "policy.yaml: Missing required key 'rules'";
         "policy.yaml: Policy file is empty" ].
Proof. split; reflexivity. Qed.

(** A mapping with only [name]: the entries for [version] and [rules],
    in this order. *)
Lemma missing_keys_reported_in_order_witness :
  validate_policy_structure (VDict [(VStr "name", VStr "p")]) "policy.yaml"
  = inr [ "policy.yaml: Missing required key 'version'";
          "policy.yaml: Missing required key 'rules'" ]
  /\ filter (is_missing_key_entry "policy.yaml")
            [ "policy.yaml: Missing required key 'version'";
              "policy.yaml: Missing required key 'rules'" ]
     = [ "policy.yaml: Missing required key 'version'";
         "policy.yaml: Missing required key 'rules'" ].
Proof.
  split; [reflexivity |].
  exact (missing_keys_reported_in_order
           (VDict [(VStr "name", VStr "p")]) "policy.yaml"
           [ "policy.yaml: Missing required key 'version'";
             "policy.yaml: Missing required key 'rules'" ]
           eq_refl).
Defined.

(** A policy whose only rule has no [severity]. *)
Definition policy_without_severity : value :=
  VDict [ (VStr "name", VStr "p");
          (VStr "version", VStr "1");
          (VStr "rules",
            VList [ VDict [ (VStr "id", VStr "r1");
                            (VStr "description", VStr "d") ] ]) ].

Lemma severity_checks_exclusive_witness :
  validate_policy_structure policy_without_severity "policy.yaml"
  = inr ["policy.yaml: Rule 0 missing 'severity' field"]
  /\ ~ (In (msg_rule_missing "policy.yaml" 0 "severity")
           ["policy.yaml: Rule 0 missing 'severity' field"]
        /\ exists shown,
            In (msg_rule_severity "policy.yaml" 0 shown)
               ["policy.yaml: Rule 0 missing 'severity' field"]).
Proof.
  split; [reflexivity |].
  exact (severity_checks_exclusive
           policy_without_severity "policy.yaml"
           ["policy.yaml: Rule 0 missing 'severity' field"] 0 eq_refl).
Defined.

(** Three rules: a number, a mapping with an unknown severity and
    nothing else, and a complete rule: 1 + 3 + 0 entries. *)
Definition three_rules : list value :=
  [ VInt 3;
    VDict [ (VStr "severity", VStr "extreme") ];
    VDict [ (VStr "id", VStr "r3");
            (VStr "description", VStr "d");
            (VStr "severity", VStr "low") ] ].

Definition three_rules_errors : list string :=
  [ "policy.yaml: Missing required key 'name'";
    "policy.yaml: Missing required key 'version'";
    "policy.yaml: Rule 0 must be a dictionary";
    "policy.yaml: Rule 1 missing 'id' field";
    "policy.yaml: Rule 1 missing 'description' field";
    "policy.yaml: Rule 1 invalid severity 'extreme'" ].

Lemma three_rules_validated :
  validate_policy_structure
    (VDict [(VStr "rules", VList three_rules)]) "policy.yaml"
  = inr three_rules_errors.
Proof. reflexivity. Defined.







(** ** Concrete runs of the command line *)

(** The suffix of a POSIX path as [pathlib] of CPython 3.12 computes it
    (what follows the last dot of the last component, unless that dot is
    its first or its last character), lower-cased on ASCII letters. *)
Module SamplePath.

Fixpoint has_slash (s : string) : bool :=
  match s with
  | EmptyString => false
  | String c rest => Ascii.eqb c "/" || has_slash rest
  end.

Fixpoint name (path : string) : string :=
  match path with
  | EmptyString => EmptyString
  | String c rest =>
      if has_slash rest then name rest
      else if Ascii.eqb c "/" then rest else path
  end.

Fixpoint from_last_dot (s : string) : option string :=
  match s with
  | EmptyString => None
  | String c rest =>
      match from_last_dot rest with
      | Some found => Some found
      | None => if Ascii.eqb c "." then Some s else None
      end
  end.

Definition suffix (path : string) : string :=
  match name path with
  | EmptyString => EmptyString
  | String _ rest =>
      match from_last_dot rest with
      | Some (String _ EmptyString) | None => EmptyString
      | Some found => found
      end
  end.

Definition lower_ascii (c : ascii) : ascii :=
  let n := nat_of_ascii c in
  if Nat.leb 65 n && Nat.leb n 90 then ascii_of_nat (n + 32) else c.

Fixpoint lower (s : string) : string :=
  match s with
  | EmptyString => EmptyString
  | String c rest => String (lower_ascii c) (lower rest)
  end.

Definition suffix_lower (path : string) : string := lower (suffix path).

End SamplePath.

Definition unreadable : file_io :=
  {| open_file := inl PermissionError; safe_load := inr VNone |}.

Definition not_yaml : file_io :=
  {| open_file := inr tt;
     safe_load := inl (YAMLError "mapping values are not allowed here") |}.

(** A directory with a valid policy, a policy without severity, notes
    that cannot be read, and an empty policy; a pattern that [glob]
    refuses. *)
Definition sample_world : world :=
  {| glob := fun pattern =>
       if String.eqb pattern "policies/*" then
         {| yielded := [ ("policies/good.yaml", decoded minimal_policy);
                         ("policies/NOTES.txt", unreadable);
                         ("policies/Old.YML",
                          decoded policy_without_severity) ];
            failure := None |}
       else if String.eqb pattern "/etc/*.yaml" then
         {| yielded := [];
            failure := Some (OtherException
                               "Non-relative patterns are unsupported") |}
       else {| yielded := []; failure := None |};
     suffix_lower := SamplePath.suffix_lower |}.

(** The same directory without the notes. *)
Definition sample_world_without_notes : world :=
  {| glob := fun pattern =>
       if String.eqb pattern "policies/*" then
         {| yielded := [ ("policies/good.yaml", decoded minimal_policy);
                         ("policies/Old.YML",
                          decoded policy_without_severity) ];
            failure := None |}
       else {| yielded := []; failure := None |};
     suffix_lower := SamplePath.suffix_lower |}.

Lemma sample_globs_succeed : globs_succeed sample_world ["policies/*"].
Proof. intros pattern [<- | []]. reflexivity. Defined.

Lemma sample_globs_succeed_without_notes :
  globs_succeed sample_world_without_notes ["policies/*"].
Proof. intros pattern [<- | []]. reflexivity. Defined.

Lemma sample_globs_succeed_elsewhere : globs_succeed sample_world ["docs/*"].
Proof. intros pattern [<- | []]. reflexivity. Defined.

(** A standard output in UTF-8, which takes every text, and one in
    ASCII, as under the C locale, which refuses a text with a character
    outside ASCII. *)
Definition utf8_console : console := {| write_fault := fun _ => None |}.

Definition is_ascii_char (c : ascii) : bool :=
  match c with
  | Ascii _ _ _ _ _ _ _ high => negb high
  end.

Fixpoint is_ascii (s : string) : bool :=
  match s with
  | EmptyString => true
  | String c rest => is_ascii_char c && is_ascii rest
  end.

Definition cannot_encode : exn :=
  UnicodeEncodeError "'ascii' codec can't encode character".

Definition ascii_console : console :=
  {| write_fault := fun text =>
       if is_ascii text then None else Some cannot_encode |}.

Lemma utf8_console_accepts (texts : list string) :
  accepts utf8_console texts.
Proof. intros text _. reflexivity. Defined.

Lemma lint_policy_file_fault_witness :
  lint_policy_file "policy.yaml" not_yaml
  = ["policy.yaml: YAML parsing error: mapping values are not allowed here"]
  /\ lint_policy_file "notes.yaml" unreadable
     = ["notes.yaml: Permission denied"].
Proof.
  split.
  - exact (proj1 (lint_policy_file_fault "policy.yaml" not_yaml true
                    (YAMLError "mapping values are not allowed here")
                    eq_refl)).
  - exact (proj1 (lint_policy_file_fault "notes.yaml" unreadable false
                    PermissionError eq_refl)).
Defined.

Lemma structural_errors_in_check_order_witness :
  exists missing types rules,
    [ "policy.yaml: Missing required key 'version'";
      "policy.yaml: 'name' must be a string";
      "policy.yaml: Rule 0 must be a dictionary" ]
    = missing ++ types ++ rules
    /\ Forall (fun e => is_missing_key_entry "policy.yaml" e = true) missing
    /\ Forall (fun e => is_type_entry "policy.yaml" e = true) types
    /\ Forall (fun e => is_rule_entry "policy.yaml" e = true) rules.
Proof.
  exact (structural_errors_in_check_order
           (VDict [ (VStr "name", VInt 7);
                    (VStr "rules", VList [VStr "r"]) ])
           "policy.yaml"
           [ "policy.yaml: Missing required key 'version'";
             "policy.yaml: 'name' must be a string";
             "policy.yaml: Rule 0 must be a dictionary" ]
           eq_refl).
Defined.

Definition mistyped_policy : list (value * value) :=
  [ (VStr "name", VInt 7); (VStr "rules", VStr "r1, r2") ].

Lemma type_entries_reported_iff_witness :
  validate_policy_structure (VDict mistyped_policy) "policy.yaml"
  = inr [ "policy.yaml: Missing required key 'version'";
          "policy.yaml: 'name' must be a string";
          "policy.yaml: 'rules' must be a list" ]
  /\ (exists v, Py.dict_lookup "name" mistyped_policy = Some v
                /\ Py.isinstance_str v = false)
  /\ (exists v, Py.dict_lookup "rules" mistyped_policy = Some v
                /\ is_sequence v = false).
Proof.
  split; [reflexivity |].
  destruct (type_entries_reported_iff
              mistyped_policy "policy.yaml"
              [ "policy.yaml: Missing required key 'version'";
                "policy.yaml: 'name' must be a string";
                "policy.yaml: 'rules' must be a list" ]
              eq_refl)
    as [Hname [_ Hrules]].
  split.
  - apply (proj1 Hname). right; left. reflexivity.
  - apply (proj1 Hrules). right; right; left. reflexivity.
Defined.

Lemma rule_entries_reported_iff_witness :
  In (msg_rule_not_dict "policy.yaml" 0) three_rules_errors
  /\ In (msg_rule_missing "policy.yaml" 1 "id") three_rules_errors
  /\ In (msg_rule_severity "policy.yaml" 1 "extreme") three_rules_errors
  /\ ~ In (msg_rule_missing "policy.yaml" 2 "id") three_rules_errors.
Proof.
  pose proof (rule_entries_reported_iff
                [(VStr "rules", VList three_rules)] three_rules "policy.yaml"
                three_rules_errors three_rules_validated eq_refl)
    as Hiff.
  split; [| split; [| split]].
  - apply (proj1 (Hiff 0)). exists (VInt 3). split; reflexivity.
  - apply (proj1 (proj2 (Hiff 1)) "id"); [simpl; tauto |].
    exists [(VStr "severity", VStr "extreme")]. split; reflexivity.
  - apply (proj2 (proj2 (Hiff 1)) "extreme").
    exists [(VStr "severity", VStr "extreme")], (VStr "extreme").
    repeat split; reflexivity.
  - intros H. apply (proj1 (proj2 (Hiff 2)) "id") in H; [| simpl; tauto].
    destruct H as [fields [Hnth Hhas]].
    injection Hnth as <-. discriminate Hhas.
Defined.

Lemma rules_of_wrong_type_single_error_witness :
  validate_policy_structure
    (VDict [ (VStr "name", VStr "p"); (VStr "version", VStr "1");
             (VStr "rules", VStr "not-a-list") ])
    "policy.yaml"
  = inr ["policy.yaml: 'rules' must be a list"].
Proof.
  exact (rules_of_wrong_type_single_error
           [ (VStr "name", VStr "p"); (VStr "version", VStr "1");
             (VStr "rules", VStr "not-a-list") ]
           "p" "1" (VStr "not-a-list") "policy.yaml"
           eq_refl eq_refl eq_refl eq_refl).
Defined.


Lemma main_output_witness :
  snd (main utf8_console sample_world (Args "policies/*" [] true))
  = [ "Linting policies/good.yaml...";
      "Linting policies/Old.YML...";
      msg_processed 2;
      msg_found 1;
      "  policies/Old.YML: Rule 0 missing 'severity' field" ]
  /\ main ascii_console sample_world (Args "policies/*" [] true)
     = (inl cannot_encode,
        [ "Linting policies/good.yaml...";
          "Linting policies/Old.YML...";
          msg_processed 2 ]).
Proof.
  split.
  - exact (proj1 (proj2 (main_output utf8_console sample_world
                           "policies/*" [] true sample_globs_succeed))
                 (utf8_console_accepts _)).
  - exact (proj1 (main_output ascii_console sample_world
                    "policies/*" [] true sample_globs_succeed)).
Defined.

Lemma main_ignores_other_files_witness :
  main utf8_console sample_world (Args "policies/*" [] true)
  = main utf8_console sample_world_without_notes (Args "policies/*" [] true).
Proof.
  exact (main_ignores_other_files
           utf8_console sample_world sample_world_without_notes
           "policies/*" [] true
           sample_globs_succeed sample_globs_succeed_without_notes eq_refl).
Defined.

Lemma main_glob_failure_witness :
  main utf8_console sample_world
       (Args "policies/*" ["/etc/*.yaml"; "docs/*"] true)
  = (inl (OtherException "Non-relative patterns are unsupported"),
     [ "Linting policies/good.yaml..."; "Linting policies/Old.YML..." ]).
Proof.
  exact (proj1 (main_glob_failure utf8_console sample_world
                  ["policies/*"] ["docs/*"] "/etc/*.yaml"
                  "policies/*" ["/etc/*.yaml"; "docs/*"]
                  (OtherException "Non-relative patterns are unsupported")
                  true eq_refl sample_globs_succeed eq_refl)
               (utf8_console_accepts _)).
Defined.

Lemma main_without_policy_files_witness :
  main utf8_console sample_world (Args "docs/*" [] false)
  = (inr 0, [msg_passed 0])
  /\ main ascii_console sample_world (Args "docs/*" [] true)
     = (inl cannot_encode, [msg_processed 0]).
Proof.
  split.
  - exact (proj2 (main_without_policy_files utf8_console sample_world
                    "docs/*" [] false sample_globs_succeed_elsewhere eq_refl)
                 (utf8_console_accepts _)).
  - exact (proj1 (main_without_policy_files ascii_console sample_world
                    "docs/*" [] true sample_globs_succeed_elsewhere eq_refl)).
Defined.

Lemma lint_policy_file_non_mapping_witness :
  lint_policy_file "policy.yaml" (decoded (VStr "just text"))
  = [ "policy.yaml: Missing required key 'name'";
      "policy.yaml: Missing required key 'version'";
      "policy.yaml: Missing required key 'rules'";
      "policy.yaml: Policy must be a YAML object" ]
  /\ lint_policy_file "policy.yaml" (decoded (VStr "my rules"))
     = [ ("policy.yaml: Unexpected error: "
          ++ "string indices must be integers, not 'str'")%string ]
  /\ lint_policy_file "policy.yaml" (decoded (VSet []))
     = [ "policy.yaml: Missing required key 'name'";
         "policy.yaml: Missing required key 'version'";
         "policy.yaml: Missing required key 'rules'";
         "policy.yaml: Policy file is empty" ]
  /\ lint_policy_file "policy.yaml" (decoded (VSet [VStr "name"]))
     = [ "policy.yaml: Unexpected error: 'set' object is not subscriptable" ]
  /\ lint_policy_file "policy.yaml" (decoded (VBytes "name"))
     = [ ("policy.yaml: Unexpected error: "
          ++ "a bytes-like object is required, not 'str'")%string ].
Proof.
  split; [| split; [| split; [| split]]].
  - exact (proj1 (lint_policy_file_non_mapping (VStr "just text")
                    "policy.yaml" eq_refl eq_refl)).
  - exact (proj1 (lint_policy_file_non_mapping (VStr "my rules")
                    "policy.yaml" eq_refl eq_refl)).
  - exact (proj1 (lint_policy_file_non_mapping (VSet [])
                    "policy.yaml" eq_refl eq_refl)).
  - exact (proj1 (lint_policy_file_non_mapping (VSet [VStr "name"])
                    "policy.yaml" eq_refl eq_refl)).
  - exact (proj1 (lint_policy_file_non_mapping (VBytes "name")
                    "policy.yaml" eq_refl eq_refl)).
Defined.

Lemma other_keys_are_ignored_witness :
  lint_policy_file "policy.yaml"
    (decoded (VDict [ (VStr "owner", VStr "ops"); (VStr "name", VInt 7) ]))
  = lint_policy_file "policy.yaml"
      (decoded (VDict [ (VStr "name", VInt 7); (VInt 1, VList []) ])).
Proof.
  apply other_keys_are_ignored; try discriminate.
  intros key [<- | [<- | [<- | [<- | []]]]]; reflexivity.
Defined.

